(** * form-widget: the field and form components, and their validators

    A shallow embedding of [react/src/app/InputField.tsx] and
    [react/src/app/OldForm.tsx] (which holds both [OldForm] and [NewForm]),
    followed by the properties of the validation and state-synchronisation
    protocol that hold, or fail, on them.

    Conventions of the embedding.
    - A JavaScript string is a [string]; one [ascii] stands for one UTF-16
      code unit, and [String.length] for [.length].  The validators of the
      repository look at nothing but the length.
    - [string | null] is [option string]; a string used as a condition is
      true exactly when it is not empty ([truthy]).
    - A React event handler reads the state of the render it was created in
      (the snapshot [s]) and queues writes; the state of the next render is
      the snapshot with the queued writes applied in order.  A handler is
      therefore a function from the snapshot to the next state, paired with
      the list of calls it makes to the outside, in order. *)

From stdpp Require Import gmap strings list.

Open Scope string_scope.
Open Scope nat_scope.
Open Scope list_scope.

(** JavaScript truthiness of a string. *)
Definition truthy (s : string) : bool :=
  match s with
  | EmptyString => false
  | String _ _ => true
  end.

(** ** InputField.tsx *)

Module InputField.

(** [validate?: (value: string) => string | null] *)
Definition Validator : Type := string -> option string.

(** [useState(initialValue)], [useState<string | null>(null)] *)
Record State : Type := {
  value : string;
  error : option string
}.

Inductive Event : Type :=
| Change (newValue : string)   (* onChange of the <input>, e.target.value *)
| Blur.                        (* onBlur of the <input> *)

Section Component.

(** The function values a parent may pass as [onChange]. *)
Variable Callback : Type.

(** The props the component reads; the rest is spread onto the <input>. *)
Record InputFieldProps : Type := {
  validate : option Validator;
  onChange : option Callback;
  initialValue : option string       (* absent: defaults to '' *)
}.

(** What a handler calls: the two function props, with the argument. *)
Inductive Call : Type :=
| Validated (arg : string)                  (* validate(arg) *)
| Invoked (cb : Callback) (arg : string).   (* onChange(arg) *)

Definition mount (p : InputFieldProps) : State :=
  {| value := default "" (initialValue p); error := None |}.

Definition handleChange (p : InputFieldProps) (newValue : string) (s : State)
  : State * list Call :=
  ({| value := newValue; error := error s |},
   match onChange p with
   | Some cb => [Invoked cb newValue]
   | None => []
   end).

Definition handleBlur (p : InputFieldProps) (s : State) : State * list Call :=
  match validate p with
  | Some f =>
      let errorMessage := f (value s) in
      ({| value := value s; error := errorMessage |}, [Validated (value s)])
  | None => (s, [])
  end.

Definition step (p : InputFieldProps) (ev : Event) (s : State)
  : State * list Call :=
  match ev with
  | Change newValue => handleChange p newValue s
  | Blur => handleBlur p s
  end.

(** The events are handled one at a time, each on the state the previous
    one left; the calls are collected in order. *)
Fixpoint run (p : InputFieldProps) (evs : list Event) (s : State)
  : State * list Call :=
  match evs with
  | [] => (s, [])
  | ev :: rest =>
      let '(s1, c1) := step p ev s in
      let '(s2, c2) := run p rest s1 in
      (s2, c1 ++ c2)
  end.

Definition isValidated (c : Call) : bool :=
  match c with
  | Validated _ => true
  | Invoked _ _ => false
  end.

End Component.

(** [{error && <p ...>{error}</p>}]: the message under the input. *)
Definition errorShown (s : State) : option string :=
  match error s with
  | Some m => if truthy m then Some m else None
  | None => None
  end.

(** The value the field held at its most recent blur, for a field that
    holds [v] before the events; [None] when the events hold no blur. *)
Fixpoint valueAtLastBlur (v : string) (evs : list Event) : option string :=
  match evs with
  | [] => None
  | Change newValue :: rest => valueAtLastBlur newValue rest
  | Blur :: rest =>
      match valueAtLastBlur v rest with
      | Some v' => Some v'
      | None => Some v
      end
  end.

(** The value a field holds after the events, for a field that holds [v]
    before them: the value of the last change event. *)
Fixpoint lastValue (v : string) (evs : list Event) : string :=
  match evs with
  | [] => v
  | Change newValue :: rest => lastValue newValue rest
  | Blur :: rest => lastValue v rest
  end.

(** The values of the change events, in order. *)
Fixpoint changedValues (evs : list Event) : list string :=
  match evs with
  | [] => []
  | Change newValue :: rest => newValue :: changedValues rest
  | Blur :: rest => changedValues rest
  end.

(** The value the field holds at each blur event, in order. *)
Fixpoint blurValues (v : string) (evs : list Event) : list string :=
  match evs with
  | [] => []
  | Change newValue :: rest => blurValues newValue rest
  | Blur :: rest => v :: blurValues v rest
  end.

End InputField.

Arguments InputField.validate {Callback} _.
Arguments InputField.onChange {Callback} _.
Arguments InputField.initialValue {Callback} _.
Arguments InputField.mount {Callback} _.
Arguments InputField.handleChange {Callback} _ _ _.
Arguments InputField.handleBlur {Callback} _ _.
Arguments InputField.step {Callback} _ _ _.
Arguments InputField.run {Callback} _ _ _.
Arguments InputField.Validated {Callback} _.
Arguments InputField.Invoked {Callback} _ _.
Arguments InputField.isValidated {Callback} _.

(** ** OldForm.tsx, second component: NewForm *)

Module NewForm.

Definition validateUsername (value : string) : option string :=
  if (0 <? String.length value) && (String.length value <? 7)
  then Some "Username must be at least 7 characters long"
  else None.

Definition validatePassword (value : string) : option string :=
  if (0 <? String.length value) && (String.length value <? 8)
  then Some "Password must be at least 8 characters long"
  else None.

(** A mounted <InputField name=... />.  NewForm passes no [onChange], so
    its fields have no callback to invoke. *)
Record Field : Type := {
  name : string;
  props : InputField.InputFieldProps Empty_set;
  state : InputField.State
}.

Definition mountField (n : string) (p : InputField.InputFieldProps Empty_set)
  : Field :=
  {| name := n; props := p; state := InputField.mount p |}.

(** The two fields of the returned <form>, in order. *)
Definition usernameProps : InputField.InputFieldProps Empty_set :=
  {| InputField.validate := Some validateUsername;
     InputField.onChange := None;
     InputField.initialValue := None |}.

Definition passwordProps : InputField.InputFieldProps Empty_set :=
  {| InputField.validate := Some validatePassword;
     InputField.onChange := None;
     InputField.initialValue := None |}.

Definition mount : list Field :=
  [mountField "username" usernameProps; mountField "password" passwordProps].

(** [new FormData(e.currentTarget).get(n)]: the value of the first control
    of the form named [n], [null] when there is none.  The <input> of a
    field is controlled by the field's [value]. *)
Fixpoint formDataGet (n : string) (fields : list Field) : option string :=
  match fields with
  | [] => None
  | f :: rest =>
      if String.eqb (name f) n then Some (InputField.value (state f))
      else formDataGet n rest
  end.

Record Data : Type := {
  username : option string;
  password : option string
}.

Inductive Out : Type :=
| PreventDefault                 (* e.preventDefault() *)
| ConsoleLog (data : Data).      (* console.log('Form submitted with data:', data) *)

(** The handler of the form's submit event, for the fields mounted under
    the form. *)
Definition handleSubmit (fields : list Field) : list Field * list Out :=
  let data := {| username := formDataGet "username" fields;
                 password := formDataGet "password" fields |} in
  (fields, [PreventDefault; ConsoleLog data]).

(** An event of the form: an event of the field named [n], or a submit. *)
Inductive Event : Type :=
| OnField (n : string) (ev : InputField.Event)
| Submit.

Definition stepField (n : string) (ev : InputField.Event) (f : Field) : Field :=
  if String.eqb (name f) n
  then {| name := name f; props := props f;
          state := fst (InputField.step (props f) ev (state f)) |}
  else f.

Definition step (ev : Event) (fields : list Field) : list Field :=
  match ev with
  | OnField n fev => map (stepField n fev) fields
  | Submit => fst (handleSubmit fields)
  end.

Definition run (evs : list Event) (fields : list Field) : list Field :=
  fold_left (fun fs ev => step ev fs) evs fields.

Definition isFieldEvent (ev : Event) : bool :=
  match ev with
  | OnField _ _ => true
  | Submit => false
  end.

(** What the user typed last into the field named [n], [v] when the events
    hold no change of that field. *)
Fixpoint typed (n : string) (evs : list Event) (v : string) : string :=
  match evs with
  | [] => v
  | OnField m (InputField.Change newValue) :: rest =>
      if String.eqb m n then typed n rest newValue else typed n rest v
  | _ :: rest => typed n rest v
  end.

(** The events of the field named [n] among the events of the form. *)
Fixpoint eventsOf (n : string) (evs : list Event) : list InputField.Event :=
  match evs with
  | [] => []
  | OnField m ev :: rest =>
      if String.eqb m n then ev :: eventsOf n rest else eventsOf n rest
  | Submit :: rest => eventsOf n rest
  end.

(** The form with its username field in the state [su] and its password
    field in the state [sp]. *)
Definition mounted (su sp : InputField.State) : list Field :=
  [ {| name := "username"; props := usernameProps; state := su |};
    {| name := "password"; props := passwordProps; state := sp |} ].

End NewForm.

(** ** OldForm.tsx, first component: OldForm *)

Module OldForm.

(** The four [useState('')] of the component. *)
Record State : Type := {
  username : string;
  password : string;
  usernameError : string;
  passwordError : string
}.

Definition mount : State :=
  {| username := ""; password := ""; usernameError := ""; passwordError := "" |}.

Definition setUsername (v : string) (s : State) : State :=
  {| username := v; password := password s;
     usernameError := usernameError s; passwordError := passwordError s |}.

Definition setPassword (v : string) (s : State) : State :=
  {| username := username s; password := v;
     usernameError := usernameError s; passwordError := passwordError s |}.

Definition setUsernameError (v : string) (s : State) : State :=
  {| username := username s; password := password s;
     usernameError := v; passwordError := passwordError s |}.

Definition setPasswordError (v : string) (s : State) : State :=
  {| username := username s; password := password s;
     usernameError := usernameError s; passwordError := v |}.

(** The validators of OldForm return nothing: they write the error state.
    The second argument is the state the writes are queued on. *)
Definition validateUsername (value : string) (pending : State) : State :=
  if (0 <? String.length value) && (String.length value <? 7)
  then setUsernameError "Username must be at least 7 characters long" pending
  else setUsernameError "" pending.

Definition validatePassword (value : string) (pending : State) : State :=
  if (0 <? String.length value) && (String.length value <? 8)
  then setPasswordError "Password must be at least 8 characters long" pending
  else setPasswordError "" pending.

Definition handleUsernameChange (value : string) (s : State) : State :=
  validateUsername value (setUsername value s).

(** Only validate if there was an error and the user is typing. *)
Definition handlePasswordChange (value : string) (s : State) : State :=
  let pending := setPassword value s in
  if truthy (passwordError s) then validatePassword value pending
  else pending.

(** Both blur handlers are defined by the component, and passed to no
    element: neither <input> has an [onBlur]. *)
Definition handleUsernameBlur (s : State) : State :=
  validateUsername (username s) s.

Definition handlePasswordBlur (s : State) : State :=
  validatePassword (password s) s.

Inductive Out : Type :=
| PreventDefault                              (* e.preventDefault() *)
| ConsoleLog (username password : string).    (* console.log(username, password) *)

(** The guard of [handleSubmit]; it reads the snapshot, not the errors the
    two validations just queued. *)
Definition rejects (s : State) : bool :=
  truthy (usernameError s) || truthy (passwordError s)
  || (String.length (username s) <? 7) || (String.length (password s) <? 8).

(** The state after the two validations of [handleSubmit] alone. *)
Definition revalidate (s : State) : State :=
  validatePassword (password s) (validateUsername (username s) s).

Definition handleSubmit (s : State) : State * list Out :=
  let pending := revalidate s in
  if rejects s
  then (pending, [PreventDefault])
  else (setPasswordError "" (setUsernameError "" (setPassword "" (setUsername "" pending))),
        [PreventDefault; ConsoleLog (username s) (password s)]).

(** The events the rendered form reacts to. *)
Inductive Event : Type :=
| UsernameChange (value : string)
| PasswordChange (value : string)
| Submit.

Definition step (ev : Event) (s : State) : State :=
  match ev with
  | UsernameChange v => handleUsernameChange v s
  | PasswordChange v => handlePasswordChange v s
  | Submit => fst (handleSubmit s)
  end.

(** The states a mounted OldForm can be in. *)
Inductive reachable : State -> Prop :=
| reachable_mount : reachable mount
| reachable_step ev s : reachable s -> reachable (step ev s).

(** The submission went through: the values were logged. *)
Definition submitted (outs : list Out) : bool :=
  existsb (fun o => match o with ConsoleLog _ _ => true | PreventDefault => false end) outs.

(** What holds of the error messages of a mounted form: the username
    error always is the verdict on the username; a password error, once
    set, is the message for a password of 1 to 7 characters. *)
Definition errorsInSync (s : State) : Prop :=
  usernameError s = usernameError (validateUsername (username s) s)
  /\ (passwordError s = ""
      \/ (passwordError s = "Password must be at least 8 characters long"
          /\ 0 < String.length (password s) < 8)).

(** The events are handled one at a time, each on the state the previous
    one left. *)
Definition run (evs : list Event) (s : State) : State :=
  fold_left (fun st ev => step ev st) evs s.

Definition isSubmit (ev : Event) : bool :=
  match ev with
  | Submit => true
  | UsernameChange _ | PasswordChange _ => false
  end.

(** [{usernameError && <p ...>{usernameError}</p>}] and the same for the
    password: the messages under the two inputs. *)
Definition errorsShown (s : State) : option string * option string :=
  (if truthy (usernameError s) then Some (usernameError s) else None,
   if truthy (passwordError s) then Some (passwordError s) else None).

End OldForm.

(** ** The validation primitive of the README: combineValidators *)

Module Validation.

Section Validators.

(** [R]: failure reasons; [Err]: the errors a predicate may raise;
    [V]: the values a record holds under its keys. *)
Variables (R Err V : Type).

(** [ValidationFailure<R, M>] as the README declares it, with a plain
    object of strings as [meta]. *)
Record ValidationFailure : Type := {
  reason : R;
  error : option Err;
  meta : gmap string string
}.

(** [Validator<T, R, M>] as the README declares it. *)
Definition Validator (T : Type) : Type := T -> list ValidationFailure.

(** A record is an object used as a map; [record !! key] is [record[key]],
    [None] for a key the record does not have ([undefined]). *)
Definition FieldValidator : Type := Validator (option V).

(** Modelled from the spec: the stamping done by [combineValidators], whose
    code the repository does not hold.  The failure gets [meta.field = key];
    the rest of its meta is kept. *)
Definition stamp (key : string) (f : ValidationFailure) : ValidationFailure :=
  {| reason := reason f; error := error f; meta := <["field" := key]> (meta f) |}.

(** Modelled from the spec: one step of [combineValidators], whose code the
    repository does not hold.  The failures of one key are those of its
    validator run on [record[key]], each stamped with the key. *)
Definition failuresOf (record : gmap string V) (kv : string * FieldValidator)
  : list ValidationFailure :=
  map (stamp kv.1) (kv.2 (record !! kv.1)).

(** Modelled from the spec: the value [combineValidators] returns, whose
    code the repository does not hold: the record validator, with the
    per-key validators attached to it. *)
Record CombinedValidator : Type := {
  validateRecord : Validator (gmap string V);
  fieldValidators : list (string * FieldValidator)
}.

(** Modelled from the spec: [combineValidators] lives in the validation
    utilities the README describes ([src/utils/validation]), which the
    repository does not hold; only its description and one call of it (in
    the README's form template) are there.  Given the per-key validators
    in their declared order, the record validator goes through the keys in
    that order, runs each key's validator on [record[key]], stamps every
    failure with the key and appends them to the failures so far; the
    per-key validators stay available on the result. *)
Definition combineValidators (fieldValidatorMap : list (string * FieldValidator))
  : CombinedValidator :=
  {| validateRecord := fun record =>
       fold_left (fun failures kv => failures ++ failuresOf record kv)
                 fieldValidatorMap [];
     fieldValidators := fieldValidatorMap |}.

(** Modelled from the spec: the access to an attached validator, written
    [validateForm.field1] in the README's form template. *)
Fixpoint fieldValidator (fvs : list (string * FieldValidator)) (key : string)
  : option FieldValidator :=
  match fvs with
  | [] => None
  | kv :: rest => if String.eqb kv.1 key then Some kv.2 else fieldValidator rest key
  end.

End Validators.

End Validation.

Arguments Validation.reason {R Err} _.
Arguments Validation.error {R Err} _.
Arguments Validation.meta {R Err} _.
Arguments Validation.stamp {R Err} _ _.
Arguments Validation.failuresOf {R Err V} _ _.
Arguments Validation.validateRecord {R Err V} _ _.
Arguments Validation.fieldValidators {R Err V} _.
Arguments Validation.combineValidators {R Err V} _.
Arguments Validation.fieldValidator {R Err V} _ _.
Arguments Validation.Build_ValidationFailure {R Err} _ _ _.

(** ** The form template of the README *)

Module FormTemplate.

Section GroupBy.

Context {A : Type}.

(** One step of [groupBy]: [x] joins the group of [key], at its end; a key
    seen for the first time opens a group after the groups there are. *)
Fixpoint addToGroup (key : string) (x : A) (groups : list (string * list A))
  : list (string * list A) :=
  match groups with
  | [] => [(key, [x])]
  | (k, xs) :: rest =>
      if String.eqb k key then (k, xs ++ [x]) :: rest
      else (k, xs) :: addToGroup key x rest
  end.

(** [Object.entries(groupBy(collection, iteratee))]: the template imports
    [groupBy] from its utility library; the groups are listed in the order
    their keys first occur (keys that are not array indices). *)
Definition groupBy (iteratee : A -> string) (collection : list A)
  : list (string * list A) :=
  fold_left (fun groups x => addToGroup (iteratee x) x groups) collection [].

(** [groups[key]]: the group listed under [key], if there is one. *)
Fixpoint groupOf (key : string) (groups : list (string * list A))
  : option (list A) :=
  match groups with
  | [] => None
  | (k, xs) :: rest => if String.eqb k key then Some xs else groupOf key rest
  end.

End GroupBy.

Section Template.

(** [R], [Err]: as for the validators; [V]: the values of the fields;
    [Summary]: the data of the error summary box. *)
Context {R Err V Summary : Type} `{EqDecision R} `{EqDecision Err}.

#[local] Instance failure_eq_dec : EqDecision (Validation.ValidationFailure R Err).
Proof. solve_decision. Defined.

(** The placeholders of the template: the form validator, and the
    conversion of the results for the summary box
    ([convertValidationResultsToFormErrorsSummaryData]). *)
Variable validateForm : gmap string V -> list (Validation.ValidationFailure R Err).
Variable convert : list (Validation.ValidationFailure R Err) -> Summary.

(** The state hooks of [MyForm].  [formApi] holds the names of the fields
    whose component API is published. *)
Record State : Type := {
  formValues : gmap string V;
  formErrorsRaw : list (Validation.ValidationFailure R Err);
  formErrorsSummary : option Summary;
  isSubmitting : bool;
  wasSubmitted : bool;
  formApi : gset string
}.

(** The calls the handlers make to the props and to the field APIs. *)
Inductive Call : Type :=
| OnFormValidityChange (results : list (Validation.ValidationFailure R Err))
| SetFieldErrors (field : string) (failures : list (Validation.ValidationFailure R Err))
| OnDataSubmit (results : list (Validation.ValidationFailure R Err))
               (values : gmap string V)
| PreventDefault.

(** [setFormErrors]: the raw results, and a summary only when there are
    failures. *)
Definition setFormErrors (errors : list (Validation.ValidationFailure R Err))
           (s : State) : State :=
  {| formValues := formValues s;
     formErrorsRaw := errors;
     formErrorsSummary := if 0 <? length errors then Some (convert errors) else None;
     isSubmitting := isSubmitting s;
     wasSubmitted := wasSubmitted s;
     formApi := formApi s |}.

(** [handleValueChange]: [setFieldValue(fieldName, fieldValue)]. *)
Definition handleValueChange (fieldValue : V) (fieldName : string) (s : State)
  : State :=
  {| formValues := <[fieldName := fieldValue]> (formValues s);
     formErrorsRaw := formErrorsRaw s;
     formErrorsSummary := formErrorsSummary s;
     isSubmitting := isSubmitting s;
     wasSubmitted := wasSubmitted s;
     formApi := formApi s |}.

(** [({ meta: { field } }) => field], as the key of a group: a failure
    without [meta.field] falls under the key "undefined". *)
Definition fieldOf (f : Validation.ValidationFailure R Err) : string :=
  default "undefined" (Validation.meta f !! "field").

(** The loop over the grouped failures: a call for each group whose field
    has a published API. *)
Definition fanOut (apis : gset string)
           (grouped : list (string * list (Validation.ValidationFailure R Err)))
  : list Call :=
  flat_map (fun entry => if decide (entry.1 ∈ apis)
                         then [SetFieldErrors entry.1 entry.2] else [])
           grouped.

Definition handleSubmit (s : State) : State * list Call :=
  let validationResults := validateForm (formValues s) in
  let started :=                                   (* startFormSubmit() *)
    {| formValues := formValues s;
       formErrorsRaw := formErrorsRaw s;
       formErrorsSummary := formErrorsSummary s;
       isSubmitting := true;
       wasSubmitted := wasSubmitted s;
       formApi := formApi s |} in
  let notified :=
    if decide (formErrorsRaw s = validationResults) then []
    else [OnFormValidityChange validationResults] in
  let stored := setFormErrors validationResults started in
  let submitted :=                                 (* formWasSubmitted() *)
    {| formValues := formValues stored;
       formErrorsRaw := formErrorsRaw stored;
       formErrorsSummary := formErrorsSummary stored;
       isSubmitting := isSubmitting stored;
       wasSubmitted := true;
       formApi := formApi stored |} in
  (submitted,
   notified
   ++ fanOut (formApi s) (groupBy fieldOf validationResults)
   ++ [OnDataSubmit validationResults (formValues s); PreventDefault]).

(** The events of the form: a field reports a new value, or a submit. *)
Inductive Event : Type :=
| ValueChange (fieldValue : V) (fieldName : string)
| Submit.

Definition step (ev : Event) (s : State) : State :=
  match ev with
  | ValueChange fieldValue fieldName => handleValueChange fieldValue fieldName s
  | Submit => fst (handleSubmit s)
  end.

Definition run (evs : list Event) (s : State) : State :=
  fold_left (fun st ev => step ev st) evs s.

Definition isSubmit (ev : Event) : bool :=
  match ev with
  | Submit => true
  | ValueChange _ _ => false
  end.

(** The value last reported for the field [n], [v] when none was. *)
Fixpoint lastReported (n : string) (evs : list Event) (v : option V) : option V :=
  match evs with
  | [] => v
  | ValueChange fieldValue fieldName :: rest =>
      if String.eqb fieldName n then lastReported n rest (Some fieldValue)
      else lastReported n rest v
  | Submit :: rest => lastReported n rest v
  end.

End Template.

End FormTemplate.

(** ** index.html: the form built from a schema *)

Module IndexHtml.

(** An entry of [schema.elements]. *)
Record Element : Type := {
  type : string;
  id : string;
  label : string
}.

(** The nodes the script creates: an <input> with its [id] and the [type]
    the script gave it ([None] when it set none), and a <label> with the
    [for] and [textContent] the script gave it. *)
Inductive Node : Type :=
| InputNode (inputType : option string) (inputId : string)
| LabelNode (labelFor : string) (textContent : string).

Definition schema : list Element :=
  [ {| type := "usernameInput"; id := "username"; label := "Username" |};
    {| type := "passwordInput"; id := "password"; label := "Password" |};
    {| type := "submitButton"; id := "submit"; label := "Submit" |} ].

(** The body of the loop: three tests in a row, each appending to the
    children of the form. *)
Definition iteration (form : list Node) (element : Element) : list Node :=
  let form :=
    if String.eqb (type element) "usernameInput"
    then (form ++ [LabelNode (id element) (label element)])
           ++ [InputNode None (id element)]
    else form in
  let form :=
    if String.eqb (type element) "passwordInput"
    then (form ++ [LabelNode (id element) (label element)])
           ++ [InputNode (Some "password") (id element)]
    else form in
  if String.eqb (type element) "submitButton"
  then form ++ [InputNode (Some "submit") (id element)]
  else form.

(** [for (let i = 0; i < schema.elements.length; i++)], on a form that has
    the children [form] already. *)
Definition render (elements : list Element) (form : list Node) : list Node :=
  fold_left iteration elements form.

(** The nodes one schema entry stands for. *)
Definition nodesOf (element : Element) : list Node :=
  if String.eqb (type element) "usernameInput"
  then [LabelNode (id element) (label element); InputNode None (id element)]
  else if String.eqb (type element) "passwordInput"
  then [LabelNode (id element) (label element);
        InputNode (Some "password") (id element)]
  else if String.eqb (type element) "submitButton"
  then [InputNode (Some "submit") (id element)]
  else [].

Definition known (element : Element) : bool :=
  String.eqb (type element) "usernameInput"
  || String.eqb (type element) "passwordInput"
  || String.eqb (type element) "submitButton".

Definition isSubmitButton (element : Element) : bool :=
  String.eqb (type element) "submitButton".

Definition inputIds (form : list Node) : list string :=
  flat_map (fun node => match node with
                        | InputNode _ i => [i]
                        | LabelNode _ _ => []
                        end) form.

Inductive Out : Type :=
| PreventDefault                     (* e.preventDefault() *)
| ConsoleLog (message : string).     (* console.log(...) *)

(** The listener of the form's click event. *)
Definition handleSubmit : list Out :=
  [PreventDefault; ConsoleLog "form has been clicked"].

End IndexHtml.

(** ** A field validator for the rules required and exactly five digits *)

Module Zip.

Definition isDigit (c : Ascii.ascii) : bool :=
  (48 <=? Ascii.nat_of_ascii c) && (Ascii.nat_of_ascii c <=? 57).

Fixpoint allDigits (s : string) : bool :=
  match s with
  | EmptyString => true
  | String c rest => isDigit c && allDigits rest
  end.

(** The rules in order, and the reason of each. *)
Definition rules : list ((string -> bool) * string) :=
  [ (fun v => truthy v, "required");
    (fun v => (String.length v =? 5) && allDigits v, "five digits") ].

(** Every rule is evaluated; the reasons of those that fail, in order. *)
Definition failures (v : string) : list string :=
  map snd (List.filter (fun r => negb (r.1 v)) rules).

(** As an InputField validator: the first failure, or [null]. *)
Definition validate : InputField.Validator :=
  fun v => head (failures v).

End Zip.

(** ** Inputs the statements below are evaluated at *)

Module Samples.

(** <InputField validate={Zip.validate} onChange={onValueChange} /> *)
Definition zipProps : InputField.InputFieldProps string :=
  {| InputField.validate := Some Zip.validate;
     InputField.onChange := Some "onValueChange";
     InputField.initialValue := None |}.

(** The user types 12345 into the empty field, one digit at a time. *)
Definition typing : list InputField.Event :=
  [InputField.Change "1"; InputField.Change "12"; InputField.Change "123";
   InputField.Change "1234"; InputField.Change "12345"].

(** <InputField name="username" initialValue="abc" validate={validateUsername} /> *)
Definition prefilledProps : InputField.InputFieldProps Empty_set :=
  {| InputField.validate := Some NewForm.validateUsername;
     InputField.onChange := None;
     InputField.initialValue := Some "abc" |}.

(** A form like NewForm whose username field is mounted holding "abc". *)
Definition prefilledForm : list NewForm.Field :=
  [NewForm.mountField "username" prefilledProps;
   NewForm.mountField "password" NewForm.passwordProps].

(** OldForm after the user typed "abc" as the username. *)
Definition shortUsername : OldForm.State :=
  OldForm.step (OldForm.UsernameChange "abc") OldForm.mount.

(** OldForm after the user typed a password of three characters and a
    username of seven, and pressed submit. *)
Definition shortPasswordSubmitted : OldForm.State :=
  OldForm.step OldForm.Submit
    (OldForm.step (OldForm.UsernameChange "bertrand")
       (OldForm.step (OldForm.PasswordChange "abc") OldForm.mount)).

(** OldForm with both fields filled in well. *)
Definition wellFilled : OldForm.State :=
  OldForm.step (OldForm.PasswordChange "12345678")
    (OldForm.step (OldForm.UsernameChange "bertrand") OldForm.mount).


(** A form built on the README's template, just mounted: no value
    reported, nothing submitted, the API of the field "field1" published. *)
Definition templateMounted
  : FormTemplate.State (R:=string) (Err:=Empty_set) (V:=string) (Summary:=nat) :=
  {| FormTemplate.formValues := ∅;
     FormTemplate.formErrorsRaw := [];
     FormTemplate.formErrorsSummary := None;
     FormTemplate.isSubmitting := false;
     FormTemplate.wasSubmitted := false;
     FormTemplate.formApi := {["field1"]} |}.

(** A form on the template with the fields "a" and "b", holding "x" and
    "y", the APIs of both published. *)
Definition templateAB
  : FormTemplate.State (R:=string) (Err:=Empty_set) (V:=string) (Summary:=nat) :=
  {| FormTemplate.formValues := <["a" := "x"]> (<["b" := "y"]> ∅);
     FormTemplate.formErrorsRaw := [];
     FormTemplate.formErrorsSummary := None;
     FormTemplate.isSubmitting := false;
     FormTemplate.wasSubmitted := false;
     FormTemplate.formApi := {["a"; "b"]} |}.

(** A per-key validator that fails with one failure, and one that passes. *)
Definition oneFailure : Validation.ValidationFailure string Empty_set :=
  Validation.Build_ValidationFailure "not allowed" None ∅.

Definition failing : Validation.FieldValidator string Empty_set string :=
  fun _ => [oneFailure].

Definition passing : Validation.FieldValidator string Empty_set string :=
  fun _ => [].

End Samples.

(** * Properties *)

(** ** The demo validators *)

Lemma validateUsername_spec (value : string) :
  NewForm.validateUsername value =
  if decide (0 < String.length value < 7)
  then Some "Username must be at least 7 characters long" else None.
Proof.
  unfold NewForm.validateUsername.
  destruct (Nat.ltb_spec 0 (String.length value)),
    (Nat.ltb_spec (String.length value) 7);
    case_decide; simpl; try reflexivity; lia.
Qed.

Lemma validatePassword_spec (value : string) :
  NewForm.validatePassword value =
  if decide (0 < String.length value < 8)
  then Some "Password must be at least 8 characters long" else None.
Proof.
  unfold NewForm.validatePassword.
  destruct (Nat.ltb_spec 0 (String.length value)),
    (Nat.ltb_spec (String.length value) 8);
    case_decide; simpl; try reflexivity; lia.
Qed.

(** The verdict of either validator depends on the length alone. *)
Lemma demo_validators_by_length (a b : string) :
  String.length a = String.length b ->
  NewForm.validateUsername a = NewForm.validateUsername b
  /\ NewForm.validatePassword a = NewForm.validatePassword b.
Proof.
  intros Hlen. unfold NewForm.validateUsername, NewForm.validatePassword.
  now rewrite Hlen.
Qed.

(** ** InputField: what one event does *)

Section FieldFacts.

Context {Callback : Type}.
Implicit Types (p : InputField.InputFieldProps Callback) (s : InputField.State).

Lemma handleChange_state p newValue s :
  fst (InputField.handleChange p newValue s)
  = {| InputField.value := newValue; InputField.error := InputField.error s |}.
Proof. reflexivity. Qed.

Lemma handleChange_no_validation p newValue s :
  List.filter InputField.isValidated (snd (InputField.handleChange p newValue s)) = [].
Proof. unfold InputField.handleChange; simpl. now destruct (InputField.onChange p). Qed.

Lemma handleBlur_value p s :
  InputField.value (fst (InputField.handleBlur p s)) = InputField.value s.
Proof. unfold InputField.handleBlur. now destruct (InputField.validate p). Qed.

Lemma handleBlur_error p s :
  InputField.error (fst (InputField.handleBlur p s))
  = match InputField.validate p with
    | Some f => f (InputField.value s)
    | None => InputField.error s
    end.
Proof. unfold InputField.handleBlur. now destruct (InputField.validate p). Qed.

Lemma run_cons p ev rest s :
  InputField.run p (ev :: rest) s
  = (fst (InputField.run p rest (fst (InputField.step p ev s))),
     snd (InputField.step p ev s)
     ++ snd (InputField.run p rest (fst (InputField.step p ev s)))).
Proof.
  simpl. destruct (InputField.step p ev s) as [s1 c1]; simpl.
  now destruct (InputField.run p rest s1).
Qed.

(** The error after a run, from any state: the validator's verdict on the
    value of the last blur, the error before the run when no blur occurred. *)
Lemma run_error p evs : forall s,
  InputField.error (fst (InputField.run p evs s))
  = match InputField.validate p, InputField.valueAtLastBlur (InputField.value s) evs with
    | Some f, Some v => f v
    | _, _ => InputField.error s
    end.
Proof.
  induction evs as [|ev rest IH]; intros s.
  - simpl. now destruct (InputField.validate p).
  - rewrite run_cons; simpl fst. rewrite IH. destruct ev as [newValue|]; simpl.
    + reflexivity.
    + rewrite handleBlur_value, handleBlur_error.
      destruct (InputField.validate p) as [f|]; [|reflexivity].
      now destruct (InputField.valueAtLastBlur (InputField.value s) rest).
Qed.

(** A run of value changes alone: nothing but [onChange] is called, once
    per change, and the error is left as it was. *)
Lemma run_changes p (values : list string) : forall s,
  snd (InputField.run p (map InputField.Change values) s)
  = match InputField.onChange p with
    | Some cb => map (InputField.Invoked cb) values
    | None => []
    end
  /\ InputField.error (fst (InputField.run p (map InputField.Change values) s))
     = InputField.error s.
Proof.
  induction values as [|v rest IH]; intros s.
  - simpl. now destruct (InputField.onChange p).
  - rewrite map_cons, run_cons. simpl fst; simpl snd.
    destruct (IH {| InputField.value := v; InputField.error := InputField.error s |})
      as [-> ->].
    split; [|reflexivity]. now destruct (InputField.onChange p).
Qed.

End FieldFacts.

(** C6: on every value-change event of a field given a value-changed
    callback, the callback is invoked (once, and nothing else is called)
    with the new value, whatever the validator and the state of the field. *)
Theorem C6_change_invokes_callback :
  forall (Callback : Type) (p : InputField.InputFieldProps Callback)
         (cb : Callback) (newValue : string) (s : InputField.State),
    InputField.onChange p = Some cb ->
    snd (InputField.handleChange p newValue s) = [InputField.Invoked cb newValue].
Proof.
  intros Callback p cb newValue s Hcb. unfold InputField.handleChange; simpl.
  now rewrite Hcb.
Qed.

Lemma C6_change_invokes_callback_witness :
  snd (InputField.handleChange Samples.zipProps "1" (InputField.mount Samples.zipProps))
  = [InputField.Invoked "onValueChange" "1"].
Proof.
  apply (C6_change_invokes_callback string Samples.zipProps "onValueChange" "1").
  reflexivity.
Defined.

(** C8: a value-change event leaves the error state unchanged, and after
    every sequence of events on a mounted field the error is the validator
    applied to the value held at the most recent blur, null when no blur
    occurred (or no validator is given); the message shown is that error
    when it is a non-empty string. *)
Theorem C8_error_follows_last_blur :
  forall (Callback : Type) (p : InputField.InputFieldProps Callback),
    (forall newValue s,
        InputField.error (fst (InputField.handleChange p newValue s))
        = InputField.error s)
    /\ (forall evs,
           let final := fst (InputField.run p evs (InputField.mount p)) in
           let atBlur :=
             match InputField.validate p,
                   InputField.valueAtLastBlur (InputField.value (InputField.mount p)) evs with
             | Some f, Some v => f v
             | _, _ => None
             end in
           InputField.error final = atBlur
           /\ InputField.errorShown final
              = match atBlur with
                | Some m => if truthy m then Some m else None
                | None => None
                end).
Proof.
  intros Callback p. split; [reflexivity|].
  intros evs final atBlur.
  assert (Herr : InputField.error final = atBlur).
  { subst final atBlur. rewrite run_error. simpl InputField.error.
    destruct (InputField.validate p) as [f|]; [|reflexivity].
    now destruct (InputField.valueAtLastBlur _ evs). }
  split; [exact Herr|]. unfold InputField.errorShown. now rewrite Herr.
Qed.

(** ** InputField: blurs without a change *)

Lemma valueAtLastBlur_blurs (v : string) (n : nat) :
  InputField.valueAtLastBlur v (repeat InputField.Blur (S n)) = Some v.
Proof.
  induction n as [|n IH]; [reflexivity|].
  change (repeat InputField.Blur (S (S n)))
    with (InputField.Blur :: repeat InputField.Blur (S n)).
  cbn [InputField.valueAtLastBlur]. now rewrite IH.
Qed.

Lemma run_blurs_value {Callback : Type} (p : InputField.InputFieldProps Callback)
      (n : nat) : forall s,
  InputField.value (fst (InputField.run p (repeat InputField.Blur n) s))
  = InputField.value s.
Proof.
  induction n as [|n IH]; intros s; [reflexivity|].
  cbn [repeat]. rewrite run_cons; simpl fst. rewrite IH. apply handleBlur_value.
Qed.

(** The fields of NewForm, blurred any number of times and never changed,
    hold the empty string and show no error. *)
Lemma newform_field_left_empty (n : nat) :
  InputField.errorShown
    (fst (InputField.run NewForm.usernameProps (repeat InputField.Blur n)
            (InputField.mount NewForm.usernameProps))) = None
  /\ InputField.errorShown
       (fst (InputField.run NewForm.passwordProps (repeat InputField.Blur n)
               (InputField.mount NewForm.passwordProps))) = None.
Proof.
  unfold InputField.errorShown. rewrite !run_error.
  destruct n as [|n]; [split; reflexivity|].
  rewrite !valueAtLastBlur_blurs. split; reflexivity.
Qed.

(** C10: both demo validators return null on the empty string, so a field
    holding the empty string is not reported invalid when it is validated:
    a blur of such a field leaves a null error, and a field of NewForm that
    is left empty shows no error however often it is blurred. *)
Theorem C10_empty_string_is_valid :
  NewForm.validateUsername "" = None
  /\ NewForm.validatePassword "" = None
  /\ (forall err : option string,
         InputField.error
           (fst (InputField.handleBlur NewForm.usernameProps
                   {| InputField.value := ""; InputField.error := err |})) = None
         /\ InputField.error
              (fst (InputField.handleBlur NewForm.passwordProps
                      {| InputField.value := ""; InputField.error := err |})) = None)
  /\ (forall n : nat,
         InputField.errorShown
           (fst (InputField.run NewForm.usernameProps (repeat InputField.Blur n)
                   (InputField.mount NewForm.usernameProps))) = None
         /\ InputField.errorShown
              (fst (InputField.run NewForm.passwordProps (repeat InputField.Blur n)
                      (InputField.mount NewForm.passwordProps))) = None).
Proof.
  split; [reflexivity|]. split; [reflexivity|]. split.
  - intros err. split; reflexivity.
  - exact newform_field_left_empty.
Qed.

(** C2, as stated, fails: a field mounted with the initial value "abc" and
    the username validator, blurred before any change, still holds "abc"
    and shows the validator's message. *)
Lemma C2_counterexample :
  let s := fst (InputField.handleBlur Samples.prefilledProps
                  (InputField.mount Samples.prefilledProps)) in
  InputField.value s = "abc"
  /\ InputField.errorShown s = Some "Username must be at least 7 characters long".
Proof. split; reflexivity. Qed.

(** C2, amended: the field keeps no touched flag.  For a field whose value
    has never changed since mount, one or more blurs leave the initial
    value and set the error to the validator's verdict on it (null without
    a validator); the error is shown exactly when that verdict is a
    non-empty message.  The fields of NewForm, mounted empty, show none. *)
Theorem C2_blur_validates_initial_value :
  (forall (Callback : Type) (p : InputField.InputFieldProps Callback) (n : nat),
      let initial := default "" (InputField.initialValue p) in
      let s := fst (InputField.run p (repeat InputField.Blur (S n)) (InputField.mount p)) in
      let verdict :=
        match InputField.validate p with
        | Some f => f initial
        | None => None
        end in
      InputField.value s = initial
      /\ InputField.error s = verdict
      /\ InputField.errorShown s
         = match verdict with
           | Some m => if truthy m then Some m else None
           | None => None
           end)
  /\ (forall n : nat,
         InputField.errorShown
           (fst (InputField.run NewForm.usernameProps (repeat InputField.Blur n)
                   (InputField.mount NewForm.usernameProps))) = None
         /\ InputField.errorShown
              (fst (InputField.run NewForm.passwordProps (repeat InputField.Blur n)
                      (InputField.mount NewForm.passwordProps))) = None).
Proof.
  split; [|exact newform_field_left_empty].
  intros Callback p n initial s verdict.
  assert (Herr : InputField.error s = verdict).
  { subst s verdict. rewrite run_error, valueAtLastBlur_blurs.
    now destruct (InputField.validate p). }
  split; [apply run_blurs_value|]. split; [exact Herr|].
  unfold InputField.errorShown. now rewrite Herr.
Qed.

(** ** InputField: the change-detection scenario *)

(** C1, as stated, fails: typing 12345 digit by digit into a field with
    the rules required and five digits, the verdict of the rules changes
    twice, yet the five change events run the validator not once (the only
    calls are those of [onChange]) and the cached error stays null. *)
Lemma C1_counterexample :
  let r := InputField.run Samples.zipProps Samples.typing
             (InputField.mount Samples.zipProps) in
  map Zip.failures [""; "1"; "12"; "123"; "1234"; "12345"]
  = [["required"; "five digits"]; ["five digits"]; ["five digits"];
     ["five digits"]; ["five digits"]; []]
  /\ snd r = [InputField.Invoked "onValueChange" "1";
              InputField.Invoked "onValueChange" "12";
              InputField.Invoked "onValueChange" "123";
              InputField.Invoked "onValueChange" "1234";
              InputField.Invoked "onValueChange" "12345"]
  /\ List.filter InputField.isValidated (snd r) = []
  /\ InputField.error (fst r) = None
  /\ Zip.validate "12345" = None
  /\ Zip.validate "1" = Some "five digits"
  /\ ~ In (InputField.Validated "1")
         (snd (InputField.handleChange Samples.zipProps "1"
                 (InputField.mount Samples.zipProps))).
Proof.
  repeat split; try reflexivity.
  simpl. intros [H|[]]. discriminate H.
Qed.

(** C1, amended: a value-change event stores the new value, leaves the
    cached error as it was and calls nothing but [onChange] (when given)
    with the new value: it does not run the validator, and the field has no
    validity-changed callback.  The validator is run by a blur, on the value
    held then, and its verdict becomes the error.  Over any sequence of
    value changes, among them "1", "12", "123", "1234", "12345" against the
    rules required and five digits, the validator is never run and the
    error stays as it was. *)
Theorem C1_change_runs_no_validation :
  forall (Callback : Type) (p : InputField.InputFieldProps Callback),
    (forall newValue s,
        InputField.handleChange p newValue s
        = ({| InputField.value := newValue; InputField.error := InputField.error s |},
           match InputField.onChange p with
           | Some cb => [InputField.Invoked cb newValue]
           | None => []
           end))
    /\ (forall f s,
           InputField.validate p = Some f ->
           InputField.handleBlur p s
           = ({| InputField.value := InputField.value s;
                 InputField.error := f (InputField.value s) |},
              [InputField.Validated (InputField.value s)]))
    /\ (forall values s,
           let r := InputField.run p (map InputField.Change values) s in
           List.filter InputField.isValidated (snd r) = []
           /\ InputField.error (fst r) = InputField.error s).
Proof.
  intros Callback p. split; [reflexivity|]. split.
  - intros f s Hf. unfold InputField.handleBlur. now rewrite Hf.
  - intros values s r. subst r.
    destruct (run_changes p values s) as [Hcalls Herr].
    split; [|exact Herr]. rewrite Hcalls.
    destruct (InputField.onChange p) as [cb|]; [|reflexivity].
    clear Hcalls Herr. induction values as [|v rest IH]; [reflexivity|exact IH].
Qed.

Lemma C1_change_runs_no_validation_witness :
  InputField.handleBlur Samples.zipProps (InputField.mount Samples.zipProps)
  = ({| InputField.value := ""; InputField.error := Some "required" |},
     [InputField.Validated ""]).
Proof.
  destruct (C1_change_runs_no_validation string Samples.zipProps) as [_ [Hblur _]].
  apply (Hblur Zip.validate (InputField.mount Samples.zipProps)). reflexivity.
Defined.

(** ** NewForm: submission *)

(** C3, as stated, fails: in a form like NewForm whose username field is
    mounted holding "abc", the field is pristine and its value fails its
    validator, yet after a submission with no prior edit no field shows an
    error. *)
Lemma C3_counterexample :
  NewForm.validateUsername "abc" = Some "Username must be at least 7 characters long"
  /\ map (fun f => (NewForm.name f, InputField.value (NewForm.state f),
                    InputField.errorShown (NewForm.state f)))
         (NewForm.step NewForm.Submit Samples.prefilledForm)
     = [("username", "abc", None); ("password", "", None)].
Proof. split; reflexivity. Qed.

(** The submissions can be dropped from the history of a form: the fields
    end up as their own events alone leave them. *)
Lemma run_without_submissions (evs : list NewForm.Event) :
  forall fields : list NewForm.Field,
    NewForm.run evs fields
    = NewForm.run (List.filter NewForm.isFieldEvent evs) fields.
Proof.
  unfold NewForm.run.
  induction evs as [|ev rest IH]; intros fields; [reflexivity|].
  destruct ev as [n fev|]; simpl; apply IH.
Qed.

(** After any history, each field of a form is in the state its own
    events lead to from the state it was in; its name and props are kept. *)
Lemma newform_run_fields (evs : list NewForm.Event) :
  forall fields : list NewForm.Field,
    NewForm.run evs fields
    = map (fun f =>
             {| NewForm.name := NewForm.name f;
                NewForm.props := NewForm.props f;
                NewForm.state :=
                  fst (InputField.run (NewForm.props f)
                         (NewForm.eventsOf (NewForm.name f) evs)
                         (NewForm.state f)) |})
          fields.
Proof.
  induction evs as [|ev rest IH]; intros fields.
  - simpl. induction fields as [|[n p st] fs IHfs]; [reflexivity|].
    simpl. now rewrite <- IHfs.
  - change (NewForm.run (ev :: rest) fields)
      with (NewForm.run rest (NewForm.step ev fields)).
    rewrite IH. destruct ev as [n fev|].
    + cbn [NewForm.step]. rewrite map_map. apply map_ext. intros [m p st].
      unfold NewForm.stepField.
      cbn [NewForm.name NewForm.props NewForm.state NewForm.eventsOf].
      rewrite (String.eqb_sym n m).
      destruct (String.eqb m n);
        cbn [NewForm.name NewForm.props NewForm.state]; [|reflexivity].
      rewrite run_cons. reflexivity.
    + reflexivity.
Qed.

(** A field that showed no error shows one after a run only if the run
    holds a blur, and the validator's verdict on the value held at the last
    blur is that message, which is not empty. *)
Lemma error_shown_only_after_blur {Callback : Type}
      (p : InputField.InputFieldProps Callback) (evs : list InputField.Event)
      (s : InputField.State) (m : string) :
  InputField.error s = None ->
  InputField.errorShown (fst (InputField.run p evs s)) = Some m ->
  exists validator v,
    InputField.validate p = Some validator
    /\ InputField.valueAtLastBlur (InputField.value s) evs = Some v
    /\ validator v = Some m
    /\ truthy m = true.
Proof.
  intros Hnone. unfold InputField.errorShown. rewrite run_error, Hnone.
  destruct (InputField.validate p) as [validator|]; [|discriminate].
  destruct (InputField.valueAtLastBlur (InputField.value s) evs) as [v|];
    [|discriminate].
  destruct (validator v) as [m'|] eqn:Hv; [|discriminate].
  destruct (truthy m') eqn:Ht; [|discriminate].
  intros Hm. injection Hm as <-. exists validator, v. repeat split; assumption.
Qed.

(** C3, amended: a submission changes no field: the submit handler of
    NewForm leaves the value and the error of every field as they were, so
    a pristine field, whatever its value, shows no error after a submission
    with no prior edit, and after any history the fields are as the events
    of the fields alone leave them; a field shows an error only once a blur
    has stored a non-empty verdict: with submissions anywhere in the
    history, a field that showed no error shows a message only if its own
    events hold a blur and the validator's verdict on the value held at the
    last of them is that message.  (The pristine fields of NewForm itself
    hold the empty string, which their validators accept.) *)
Theorem C3_submission_changes_no_field :
  (forall fields : list NewForm.Field,
      NewForm.step NewForm.Submit fields = fields
      /\ (forall evs,
             NewForm.run evs fields
             = NewForm.run (List.filter NewForm.isFieldEvent evs) fields)
      /\ (forall n p,
             In (NewForm.mountField n p) fields ->
             In (NewForm.mountField n p) (NewForm.step NewForm.Submit fields)
             /\ InputField.errorShown (NewForm.state (NewForm.mountField n p)) = None)
      /\ (forall evs,
             NewForm.run evs fields
             = map (fun f =>
                      {| NewForm.name := NewForm.name f;
                         NewForm.props := NewForm.props f;
                         NewForm.state :=
                           fst (InputField.run (NewForm.props f)
                                  (NewForm.eventsOf (NewForm.name f) evs)
                                  (NewForm.state f)) |})
                   fields)
      /\ (forall evs f m,
             In f fields ->
             InputField.error (NewForm.state f) = None ->
             InputField.errorShown
               (fst (InputField.run (NewForm.props f)
                       (NewForm.eventsOf (NewForm.name f) evs)
                       (NewForm.state f))) = Some m ->
             exists validator v,
               InputField.validate (NewForm.props f) = Some validator
               /\ InputField.valueAtLastBlur
                    (InputField.value (NewForm.state f))
                    (NewForm.eventsOf (NewForm.name f) evs) = Some v
               /\ validator v = Some m
               /\ truthy m = true))
  /\ map (fun f => (NewForm.name f,
                    match InputField.validate (NewForm.props f) with
                    | Some validator => validator (InputField.value (NewForm.state f))
                    | None => None
                    end))
         NewForm.mount
     = [("username", None); ("password", None)].
Proof.
  split; [|reflexivity].
  intros fields. split; [reflexivity|]. split; [|split; [|split]].
  - intros evs. apply run_without_submissions.
  - intros n p Hin. split; [exact Hin|reflexivity].
  - intros evs. apply newform_run_fields.
  - intros evs f m _ Hnone Hshown.
    exact (error_shown_only_after_blur _ _ _ m Hnone Hshown).
Qed.

Lemma C3_submission_changes_no_field_witness :
  (In (NewForm.mountField "username" Samples.prefilledProps)
      (NewForm.step NewForm.Submit Samples.prefilledForm)
   /\ InputField.errorShown
        (NewForm.state (NewForm.mountField "username" Samples.prefilledProps)) = None)
  /\ exists validator v,
      InputField.validate Samples.prefilledProps = Some validator
      /\ InputField.valueAtLastBlur "abc"
           (NewForm.eventsOf "username"
              [NewForm.Submit; NewForm.OnField "username" InputField.Blur;
               NewForm.Submit]) = Some v
      /\ validator v = Some "Username must be at least 7 characters long"
      /\ truthy "Username must be at least 7 characters long" = true.
Proof.
  destruct C3_submission_changes_no_field as [Hall _].
  destruct (Hall Samples.prefilledForm) as [_ [_ [Hpristine [_ Hblur]]]].
  split.
  - apply (Hpristine "username" Samples.prefilledProps).
    simpl. left. reflexivity.
  - apply (Hblur [NewForm.Submit; NewForm.OnField "username" InputField.Blur;
                  NewForm.Submit]
                 (NewForm.mountField "username" Samples.prefilledProps)
                 "Username must be at least 7 characters long").
    + simpl. left. reflexivity.
    + reflexivity.
    + reflexivity.
Defined.

(** ** OldForm: submission *)

Lemma truthy_false (m : string) : truthy m = false <-> m = "".
Proof. destruct m; simpl; split; intros H; congruence. Qed.

Lemma rejects_true (s : OldForm.State) :
  OldForm.rejects s = true
  <-> OldForm.usernameError s <> "" \/ OldForm.passwordError s <> ""
      \/ String.length (OldForm.username s) < 7
      \/ String.length (OldForm.password s) < 8.
Proof.
  unfold OldForm.rejects. rewrite !orb_true_iff, !Nat.ltb_lt.
  assert (Ht : forall m, truthy m = true <-> m <> "").
  { intros m. destruct m; simpl; split; intros H; congruence. }
  rewrite !Ht. tauto.
Qed.

Lemma rejects_false (s : OldForm.State) :
  OldForm.rejects s = false
  <-> OldForm.usernameError s = "" /\ OldForm.passwordError s = ""
      /\ 7 <= String.length (OldForm.username s)
      /\ 8 <= String.length (OldForm.password s).
Proof.
  unfold OldForm.rejects. rewrite !orb_false_iff, !Nat.ltb_ge, !truthy_false.
  tauto.
Qed.

Lemma revalidate_values (s : OldForm.State) :
  OldForm.username (OldForm.revalidate s) = OldForm.username s
  /\ OldForm.password (OldForm.revalidate s) = OldForm.password s.
Proof.
  unfold OldForm.revalidate, OldForm.validatePassword, OldForm.validateUsername.
  destruct ((0 <? String.length (OldForm.username s))
            && (String.length (OldForm.username s) <? 7)),
           ((0 <? String.length (OldForm.password s))
            && (String.length (OldForm.password s) <? 8));
    split; reflexivity.
Qed.

Lemma handleSubmit_rejected (s : OldForm.State) :
  OldForm.rejects s = true ->
  OldForm.handleSubmit s = (OldForm.revalidate s, [OldForm.PreventDefault]).
Proof. intros H. unfold OldForm.handleSubmit. now rewrite H. Qed.

Lemma handleSubmit_accepted (s : OldForm.State) :
  OldForm.rejects s = false ->
  OldForm.handleSubmit s
  = (OldForm.mount,
     [OldForm.PreventDefault;
      OldForm.ConsoleLog (OldForm.username s) (OldForm.password s)]).
Proof. intros H. unfold OldForm.handleSubmit. now rewrite H. Qed.

(** C4, as stated, fails: OldForm holding the username "abc" sees a submit
    event and neither logs nor clears anything: its handler returns at the
    guard. *)
Lemma C4_counterexample :
  OldForm.username Samples.shortUsername = "abc"
  /\ OldForm.handleSubmit Samples.shortUsername
     = (Samples.shortUsername, [OldForm.PreventDefault])
  /\ OldForm.submitted (snd (OldForm.handleSubmit Samples.shortUsername)) = false.
Proof. repeat split; reflexivity. Qed.

(** C4, amended: the submit handler of NewForm runs no validation and, on
    every submission event, suppresses the default and hands on (logs) the
    full form data; it never blocks.  The submit handler of OldForm gates
    the submission itself: after re-running both validations it hands on
    (logs) the values, and clears the form (all four state variables are
    the empty string again), exactly when no error message is set and the
    username has at least 7 and the password at least 8 characters;
    otherwise it returns having only suppressed the default, the state
    being that of the two validations. *)
Theorem C4_submit_handlers :
  (forall fields : list NewForm.Field,
      NewForm.handleSubmit fields
      = (fields,
         [NewForm.PreventDefault;
          NewForm.ConsoleLog
            {| NewForm.username := NewForm.formDataGet "username" fields;
               NewForm.password := NewForm.formDataGet "password" fields |}]))
  /\ (forall s : OldForm.State,
         (OldForm.submitted (snd (OldForm.handleSubmit s)) = true
          <-> OldForm.usernameError s = "" /\ OldForm.passwordError s = ""
              /\ 7 <= String.length (OldForm.username s)
              /\ 8 <= String.length (OldForm.password s))
         /\ (OldForm.submitted (snd (OldForm.handleSubmit s)) = true ->
             OldForm.handleSubmit s
             = (OldForm.mount,
                [OldForm.PreventDefault;
                 OldForm.ConsoleLog (OldForm.username s) (OldForm.password s)]))
         /\ (OldForm.submitted (snd (OldForm.handleSubmit s)) = false ->
             OldForm.handleSubmit s
             = (OldForm.revalidate s, [OldForm.PreventDefault]))).
Proof.
  split; [reflexivity|].
  intros s. rewrite <- rejects_false.
  destruct (OldForm.rejects s) eqn:Hr.
  - rewrite (handleSubmit_rejected s Hr). simpl.
    repeat split; intros; congruence.
  - rewrite (handleSubmit_accepted s Hr). simpl.
    repeat split; intros; congruence.
Qed.

Lemma C4_submit_handlers_witness :
  OldForm.handleSubmit Samples.wellFilled
  = (OldForm.mount,
     [OldForm.PreventDefault; OldForm.ConsoleLog "bertrand" "12345678"]).
Proof.
  destruct C4_submit_handlers as [_ Hold].
  destruct (Hold Samples.wellFilled) as [_ [Hlog _]].
  apply Hlog. reflexivity.
Defined.

(** *** The error messages of a mounted OldForm *)

Lemma validatePassword_error (value : string) (pending : OldForm.State) :
  OldForm.passwordError (OldForm.validatePassword value pending)
  = if decide (0 < String.length value < 8)
    then "Password must be at least 8 characters long" else "".
Proof.
  unfold OldForm.validatePassword.
  destruct (Nat.ltb_spec 0 (String.length value)),
    (Nat.ltb_spec (String.length value) 8);
    case_decide; simpl; try reflexivity; lia.
Qed.

Lemma validatePassword_frame (value : string) (pending : OldForm.State) :
  OldForm.username (OldForm.validatePassword value pending) = OldForm.username pending
  /\ OldForm.password (OldForm.validatePassword value pending) = OldForm.password pending
  /\ OldForm.usernameError (OldForm.validatePassword value pending)
     = OldForm.usernameError pending.
Proof.
  unfold OldForm.validatePassword.
  now destruct ((0 <? String.length value) && (String.length value <? 8)).
Qed.

Lemma validateUsername_frame (value : string) (pending : OldForm.State) :
  OldForm.username (OldForm.validateUsername value pending) = OldForm.username pending
  /\ OldForm.password (OldForm.validateUsername value pending) = OldForm.password pending
  /\ OldForm.passwordError (OldForm.validateUsername value pending)
     = OldForm.passwordError pending.
Proof.
  unfold OldForm.validateUsername.
  now destruct ((0 <? String.length value) && (String.length value <? 7)).
Qed.

Lemma validateUsername_error (value : string) (s1 s2 : OldForm.State) :
  OldForm.usernameError (OldForm.validateUsername value s1)
  = OldForm.usernameError (OldForm.validateUsername value s2).
Proof.
  unfold OldForm.validateUsername.
  now destruct ((0 <? String.length value) && (String.length value <? 7)).
Qed.

Lemma errorsInSync_password (value : string) (pending : OldForm.State) :
  OldForm.password pending = value ->
  let s' := OldForm.validatePassword value pending in
  OldForm.passwordError s' = ""
  \/ (OldForm.passwordError s' = "Password must be at least 8 characters long"
      /\ 0 < String.length (OldForm.password s') < 8).
Proof.
  intros Hp s'. subst s'. rewrite validatePassword_error.
  destruct (validatePassword_frame value pending) as [_ [-> _]]. rewrite Hp.
  case_decide; [right; split; [reflexivity|assumption]|left; reflexivity].
Qed.

Lemma errorsInSync_step (ev : OldForm.Event) (s : OldForm.State) :
  OldForm.errorsInSync s -> OldForm.errorsInSync (OldForm.step ev s).
Proof.
  intros [Hu Hp]. destruct ev as [v|v|]; simpl.
  - (* the username changes *)
    unfold OldForm.handleUsernameChange. split.
    + destruct (validateUsername_frame v (OldForm.setUsername v s)) as [-> _].
      simpl. apply validateUsername_error.
    + destruct (validateUsername_frame v (OldForm.setUsername v s)) as [_ [-> ->]].
      simpl. destruct Hp as [Hp|[Hp Hlen]]; [left; exact Hp|].
      (* a password error is set, and the password is as it was *)
      right. split; assumption.
  - (* the password changes *)
    unfold OldForm.handlePasswordChange.
    destruct (truthy (OldForm.passwordError s)) eqn:Ht.
    + split.
      * destruct (validatePassword_frame v (OldForm.setPassword v s)) as [-> [_ ->]].
        simpl. rewrite Hu at 1. apply validateUsername_error.
      * apply errorsInSync_password. reflexivity.
    + apply truthy_false in Ht. split.
      * simpl. rewrite Hu at 1. apply validateUsername_error.
      * left. exact Ht.
  - (* submit *)
    destruct (OldForm.rejects s) eqn:Hr.
    + rewrite (handleSubmit_rejected s Hr). simpl fst. unfold OldForm.revalidate.
      split.
      * destruct (validatePassword_frame (OldForm.password s)
                    (OldForm.validateUsername (OldForm.username s) s)) as [-> [_ ->]].
        destruct (validateUsername_frame (OldForm.username s) s) as [-> _].
        apply validateUsername_error.
      * apply errorsInSync_password.
        now destruct (validateUsername_frame (OldForm.username s) s) as [_ [-> _]].
    + rewrite (handleSubmit_accepted s Hr). simpl fst.
      split; [reflexivity|left; reflexivity].
Qed.

Lemma reachable_errorsInSync (s : OldForm.State) :
  OldForm.reachable s -> OldForm.errorsInSync s.
Proof.
  induction 1 as [|ev s _ IH].
  - split; [reflexivity|left; reflexivity].
  - now apply errorsInSync_step.
Qed.

(** C9: a rejected submission of OldForm is atomic.  Whenever the username
    has fewer than 7 or the password fewer than 8 characters, [handleSubmit]
    returns after re-running the two validations and nothing else: both
    values are as they were, nothing is logged, and in a state the mounted
    form can be in no error message that was set is removed.  The values
    and messages are all reset to the empty string exactly when the guard
    lets the submission through, which takes a username of at least 7 and
    a password of at least 8 characters with no error message set. *)
Theorem C9_rejected_submission_keeps_state :
  forall s : OldForm.State,
    let s' := fst (OldForm.handleSubmit s) in
    (String.length (OldForm.username s) < 7
     \/ String.length (OldForm.password s) < 8 ->
     OldForm.handleSubmit s = (OldForm.revalidate s, [OldForm.PreventDefault])
     /\ OldForm.username s' = OldForm.username s
     /\ OldForm.password s' = OldForm.password s)
    /\ (s' = OldForm.mount /\ OldForm.submitted (snd (OldForm.handleSubmit s)) = true
        <-> OldForm.rejects s = false)
    /\ (OldForm.rejects s = false ->
        7 <= String.length (OldForm.username s)
        /\ 8 <= String.length (OldForm.password s)
        /\ OldForm.usernameError s = "" /\ OldForm.passwordError s = "")
    /\ (OldForm.reachable s ->
        (OldForm.rejects s = false
         <-> 7 <= String.length (OldForm.username s)
             /\ 8 <= String.length (OldForm.password s))
        /\ (OldForm.rejects s = true ->
            OldForm.usernameError s' = OldForm.usernameError s
            /\ (OldForm.passwordError s' = OldForm.passwordError s
                \/ OldForm.passwordError s = ""))).
Proof.
  intros s s'. subst s'. repeat split.
  - apply handleSubmit_rejected, rejects_true. tauto.
  - rewrite handleSubmit_rejected by (apply rejects_true; tauto).
    apply revalidate_values.
  - rewrite handleSubmit_rejected by (apply rejects_true; tauto).
    apply revalidate_values.
  - intros [_ Hlog]. destruct (OldForm.rejects s) eqn:Hr; [|reflexivity].
    rewrite (handleSubmit_rejected s Hr) in Hlog. discriminate Hlog.
  - rewrite (handleSubmit_accepted s H). reflexivity.
  - rewrite (handleSubmit_accepted s H). reflexivity.
  - apply rejects_false in H. tauto.
  - apply rejects_false in H. tauto.
  - apply rejects_false in H. tauto.
  - apply rejects_false in H. tauto.
  - apply rejects_false in H0. tauto.
  - apply rejects_false in H0. tauto.
  - intros [Hu Hp]. apply rejects_false.
    destruct (reachable_errorsInSync s H) as [Hsync Hpw].
    repeat split; try assumption.
    + rewrite Hsync. unfold OldForm.validateUsername.
      destruct (Nat.ltb_spec (String.length (OldForm.username s)) 7); [lia|].
      now rewrite andb_false_r.
    + destruct Hpw as [Hpw|[_ Hlen]]; [exact Hpw|lia].
  - rewrite (handleSubmit_rejected s H0). simpl fst. unfold OldForm.revalidate.
    destruct (validatePassword_frame (OldForm.password s)
                (OldForm.validateUsername (OldForm.username s) s)) as [_ [_ ->]].
    destruct (reachable_errorsInSync s H) as [Hsync _]. symmetry. exact Hsync.
  - rewrite (handleSubmit_rejected s H0). simpl fst. unfold OldForm.revalidate.
    destruct (reachable_errorsInSync s H) as [_ [Hpw|[Hpw Hlen]]];
      [right; exact Hpw|left].
    rewrite validatePassword_error, Hpw. now case_decide.
Qed.

Lemma C9_rejected_submission_keeps_state_witness :
  (OldForm.handleSubmit Samples.shortPasswordSubmitted
   = (OldForm.revalidate Samples.shortPasswordSubmitted, [OldForm.PreventDefault])
   /\ OldForm.username (fst (OldForm.handleSubmit Samples.shortPasswordSubmitted))
      = OldForm.username Samples.shortPasswordSubmitted
   /\ OldForm.password (fst (OldForm.handleSubmit Samples.shortPasswordSubmitted))
      = OldForm.password Samples.shortPasswordSubmitted)
  /\ (OldForm.usernameError (fst (OldForm.handleSubmit Samples.shortPasswordSubmitted))
      = OldForm.usernameError Samples.shortPasswordSubmitted
      /\ (OldForm.passwordError (fst (OldForm.handleSubmit Samples.shortPasswordSubmitted))
          = OldForm.passwordError Samples.shortPasswordSubmitted
          \/ OldForm.passwordError Samples.shortPasswordSubmitted = "")).
Proof.
  destruct (C9_rejected_submission_keeps_state Samples.shortPasswordSubmitted)
    as [Hrejected [_ [_ Hreachable]]].
  split.
  - apply Hrejected. right. simpl. lia.
  - apply Hreachable.
    + unfold Samples.shortPasswordSubmitted.
      repeat apply OldForm.reachable_step. apply OldForm.reachable_mount.
    + reflexivity.
Defined.

(** ** combineValidators *)

Section CombineFacts.

Context {R Err V : Type}.
Implicit Types (fvm : list (string * Validation.FieldValidator R Err V))
         (record : gmap string V).

Lemma accumulate_app fvm record : forall acc,
  fold_left (fun failures kv => failures ++ Validation.failuresOf record kv) fvm acc
  = acc ++ concat (map (Validation.failuresOf record) fvm).
Proof.
  induction fvm as [|kv rest IH]; intros acc; simpl.
  - now rewrite app_nil_r.
  - rewrite IH. now rewrite <- app_assoc.
Qed.

Lemma validateRecord_concat fvm record :
  Validation.validateRecord (Validation.combineValidators fvm) record
  = concat (map (Validation.failuresOf record) fvm).
Proof. exact (accumulate_app fvm record []). Qed.

Lemma stamp_field (key : string) (f : Validation.ValidationFailure R Err) :
  Validation.meta (Validation.stamp key f) !! "field" = Some key.
Proof. unfold Validation.stamp; simpl. apply lookup_insert_eq. Qed.

(** Stamping touches no other key of the meta. *)
Lemma stamp_keeps_meta (key other : string) (f : Validation.ValidationFailure R Err) :
  other <> "field" ->
  Validation.meta (Validation.stamp key f) !! other = Validation.meta f !! other.
Proof.
  intros Hne. unfold Validation.stamp; simpl.
  apply lookup_insert_ne. congruence.
Qed.

Lemma fieldValidator_exposed fvm (key : string)
      (validator : Validation.FieldValidator R Err V) :
  NoDup (map fst fvm) ->
  In (key, validator) fvm ->
  Validation.fieldValidator fvm key = Some validator.
Proof.
  induction fvm as [|[k v] rest IH]; intros Hnd Hin; [destruct Hin|].
  simpl in Hnd. apply NoDup_cons in Hnd as [Hfresh Hnd].
  simpl. destruct Hin as [Heq|Hin].
  - injection Heq as -> ->. now rewrite String.eqb_refl.
  - destruct (String.eqb_spec k key) as [->|_]; [|now apply IH].
    exfalso. apply Hfresh. apply list_elem_of_In.
    apply (in_map fst rest (key, validator)). exact Hin.
Qed.

End CombineFacts.

(** C7: the validator returned by [combineValidators], applied to a
    record, runs each key's validator on that key's value in the declared
    order of the keys and concatenates the failures, each stamped with
    [meta.field] equal to its source key; the result still exposes every
    per-key validator, so that one field's check can be run alone.  For
    [{a: Va, b: Vb}] on [{a: x, b: y}] where only [Va] fails, with one
    failure, the result is exactly that failure with [meta.field = "a"]. *)
Theorem C7_combineValidators :
  forall R Err V : Type,
    (forall (fvm : list (string * Validation.FieldValidator R Err V)),
        let combined := Validation.combineValidators fvm in
        (forall record : gmap string V,
            Validation.validateRecord combined record
            = concat (map (fun kv => map (Validation.stamp kv.1) (kv.2 (record !! kv.1)))
                          fvm))
        /\ (forall (record : gmap string V) (f : Validation.ValidationFailure R Err),
               In f (Validation.validateRecord combined record)
               <-> exists key validator f0,
                   In (key, validator) fvm
                   /\ In f0 (validator (record !! key))
                   /\ f = Validation.stamp key f0
                   /\ Validation.meta f !! "field" = Some key)
        /\ Validation.fieldValidators combined = fvm
        /\ (NoDup (map fst fvm) ->
            forall key validator,
              In (key, validator) fvm ->
              Validation.fieldValidator (Validation.fieldValidators combined) key
              = Some validator))
    /\ (forall (Va Vb : Validation.FieldValidator R Err V) (x y : V)
               (fa : Validation.ValidationFailure R Err),
           Va (Some x) = [fa] ->
           Vb (Some y) = [] ->
           let combined := Validation.combineValidators [("a", Va); ("b", Vb)] in
           let result :=
             Validation.validateRecord combined (<["a" := x]> (<["b" := y]> ∅)) in
           result = [Validation.stamp "a" fa]
           /\ length result = 1
           /\ Validation.meta (Validation.stamp "a" fa) !! "field" = Some "a"
           /\ Validation.fieldValidator (Validation.fieldValidators combined) "a" = Some Va
           /\ Validation.fieldValidator (Validation.fieldValidators combined) "b" = Some Vb).
Proof.
  intros R Err V. split.
  - intros fvm combined. subst combined. split; [|split; [|split]].
    + intros record. apply validateRecord_concat.
    + intros record f. rewrite validateRecord_concat, in_concat. split.
      * intros [fs [Hfs Hf]]. apply in_map_iff in Hfs as [[key validator] [<- Hkv]].
        unfold Validation.failuresOf in Hf; simpl in Hf.
        apply in_map_iff in Hf as [f0 [<- Hf0]].
        exists key, validator, f0. repeat split; try assumption. apply stamp_field.
      * intros [key [validator [f0 [Hkv [Hf0 [-> _]]]]]].
        exists (Validation.failuresOf record (key, validator)). split.
        -- apply in_map_iff. exists (key, validator). split; [reflexivity|exact Hkv].
        -- unfold Validation.failuresOf; simpl. apply in_map. exact Hf0.
    + reflexivity.
    + intros Hnd key validator Hin. simpl. now apply fieldValidator_exposed.
  - intros Va Vb x y fa HVa HVb combined result. subst result combined.
    assert (Hout : Validation.validateRecord
                     (Validation.combineValidators [("a", Va); ("b", Vb)])
                     (<["a" := x]> (<["b" := y]> ∅))
                   = [Validation.stamp "a" fa]).
    { rewrite validateRecord_concat. unfold Validation.failuresOf; simpl.
      rewrite lookup_insert_eq.
      rewrite lookup_insert_ne by discriminate. rewrite lookup_insert_eq.
      now rewrite HVa, HVb. }
    rewrite Hout. repeat split. apply stamp_field.
Qed.

Lemma C7_combineValidators_witness :
  Validation.validateRecord
    (Validation.combineValidators [("a", Samples.failing); ("b", Samples.passing)])
    (<["a" := "x"]> (<["b" := "y"]> ∅))
  = [Validation.stamp "a" Samples.oneFailure].
Proof.
  destruct (C7_combineValidators string Empty_set string) as [_ Hexample].
  destruct (Hexample Samples.failing Samples.passing "x" "y" Samples.oneFailure)
    as [Hresult _]; [reflexivity|reflexivity|].
  exact Hresult.
Defined.

(** * Further properties of the components *)

(** ** InputField: the value and the calls over a history *)

Section FieldHistory.

Context {Callback : Type}.
Implicit Types (p : InputField.InputFieldProps Callback) (s : InputField.State).

Lemma run_value p evs : forall s,
  InputField.value (fst (InputField.run p evs s))
  = InputField.lastValue (InputField.value s) evs.
Proof.
  induction evs as [|ev rest IH]; intros s; [reflexivity|].
  rewrite run_cons; simpl fst. rewrite IH. destruct ev as [newValue|]; simpl.
  - reflexivity.
  - now rewrite handleBlur_value.
Qed.

Lemma filter_calls_app (keep : InputField.Call Callback -> bool) (c1 c2 : list _) :
  List.filter keep (c1 ++ c2) = List.filter keep c1 ++ List.filter keep c2.
Proof. apply List.filter_app. Qed.

Lemma run_validations p evs : forall s,
  List.filter InputField.isValidated (snd (InputField.run p evs s))
  = match InputField.validate p with
    | Some _ => map InputField.Validated (InputField.blurValues (InputField.value s) evs)
    | None => []
    end.
Proof.
  induction evs as [|ev rest IH]; intros s.
  - simpl. now destruct (InputField.validate p).
  - rewrite run_cons; simpl snd. rewrite filter_calls_app, IH.
    destruct ev as [newValue|]; simpl.
    + now destruct (InputField.onChange p).
    + rewrite handleBlur_value. unfold InputField.handleBlur.
      now destruct (InputField.validate p).
Qed.

Lemma run_notifications p evs : forall s,
  List.filter (fun c => negb (InputField.isValidated c)) (snd (InputField.run p evs s))
  = match InputField.onChange p with
    | Some cb => map (InputField.Invoked cb) (InputField.changedValues evs)
    | None => []
    end.
Proof.
  induction evs as [|ev rest IH]; intros s.
  - simpl. now destruct (InputField.onChange p).
  - rewrite run_cons; simpl snd. rewrite filter_calls_app, IH.
    destruct ev as [newValue|]; simpl.
    + now destruct (InputField.onChange p).
    + unfold InputField.handleBlur.
      destruct (InputField.validate p); reflexivity.
Qed.

End FieldHistory.

(** X1: after any history of changes and blurs the field holds the value
    of its last change event (the value it had before, when there was no
    change): a blur never alters the value, with or without a validator. *)
Theorem X1_value_is_last_change :
  forall (Callback : Type) (p : InputField.InputFieldProps Callback)
         (evs : list InputField.Event) (s : InputField.State),
    InputField.value (fst (InputField.run p evs s))
    = InputField.lastValue (InputField.value s) evs
    /\ InputField.value (fst (InputField.handleBlur p s)) = InputField.value s.
Proof.
  intros Callback p evs s. split; [apply run_value|apply handleBlur_value].
Qed.

(** X2: over any history, [onChange] (when given) is called once per change
    event, in order, with the values of those events, whatever blurs lie in
    between; the validator (when given) is run once per blur, on the value
    the field holds then; nothing else is called. *)
Theorem X2_calls_of_a_history :
  forall (Callback : Type) (p : InputField.InputFieldProps Callback)
         (evs : list InputField.Event) (s : InputField.State),
    let calls := snd (InputField.run p evs s) in
    List.filter (fun c => negb (InputField.isValidated c)) calls
    = match InputField.onChange p with
      | Some cb => map (InputField.Invoked cb) (InputField.changedValues evs)
      | None => []
      end
    /\ List.filter InputField.isValidated calls
       = match InputField.validate p with
         | Some _ =>
             map InputField.Validated (InputField.blurValues (InputField.value s) evs)
         | None => []
         end.
Proof.
  intros Callback p evs s calls. subst calls.
  split; [apply run_notifications|apply run_validations].
Qed.

(** A blur directly after a blur changes nothing. *)
Lemma handleBlur_idempotent :
  forall (Callback : Type) (p : InputField.InputFieldProps Callback)
         (s : InputField.State),
    fst (InputField.handleBlur p (fst (InputField.handleBlur p s)))
    = fst (InputField.handleBlur p s).
Proof.
  intros Callback p s. unfold InputField.handleBlur.
  destruct (InputField.validate p) as [f|]; reflexivity.
Qed.

(** X3: the fields of NewForm, end to end.  Typing [v] into the username
    field and leaving it shows the username message exactly when [v] has
    1 to 6 characters; for the password field the message shows exactly
    when [v] has 1 to 7 characters.  What the field showed before does not
    matter. *)
Theorem X3_typed_then_blurred :
  forall (v : string) (s : InputField.State),
    InputField.errorShown
      (fst (InputField.run NewForm.usernameProps
              [InputField.Change v; InputField.Blur] s))
    = (if decide (0 < String.length v < 7)
       then Some "Username must be at least 7 characters long" else None)
    /\ InputField.errorShown
         (fst (InputField.run NewForm.passwordProps
                 [InputField.Change v; InputField.Blur] s))
       = (if decide (0 < String.length v < 8)
          then Some "Password must be at least 8 characters long" else None).
Proof.
  intros v s. unfold InputField.errorShown. rewrite !run_error. simpl.
  rewrite validateUsername_spec, validatePassword_spec.
  split; case_decide; reflexivity.
Qed.

(** ** NewForm: the fields over a history, and the data it logs *)

Lemma newform_run_cons (ev : NewForm.Event) (rest : list NewForm.Event)
      (fields : list NewForm.Field) :
  NewForm.run (ev :: rest) fields = NewForm.run rest (NewForm.step ev fields).
Proof. reflexivity. Qed.

Lemma newform_run_mounted (evs : list NewForm.Event) :
  forall su sp : InputField.State,
    NewForm.run evs (NewForm.mounted su sp)
    = NewForm.mounted
        (fst (InputField.run NewForm.usernameProps (NewForm.eventsOf "username" evs) su))
        (fst (InputField.run NewForm.passwordProps (NewForm.eventsOf "password" evs) sp)).
Proof.
  induction evs as [|ev rest IH]; intros su sp; [reflexivity|].
  rewrite newform_run_cons. destruct ev as [n fev|].
  - cbn [NewForm.eventsOf NewForm.step NewForm.mounted map].
    unfold NewForm.stepField; cbn [NewForm.name NewForm.props NewForm.state].
    rewrite !(String.eqb_sym _ n).
    destruct (String.eqb_spec n "username") as [->|Hu].
    + change (String.eqb "username" "password") with false. cbv iota.
      rewrite run_cons. cbn [fst]. apply IH.
    + destruct (String.eqb_spec n "password") as [->|Hp].
      * rewrite run_cons. cbn [fst]. apply IH.
      * apply IH.
  - simpl NewForm.step. apply IH.
Qed.

Lemma lastValue_eventsOf (n : string) (evs : list NewForm.Event) :
  forall v : string,
    InputField.lastValue v (NewForm.eventsOf n evs) = NewForm.typed n evs v.
Proof.
  induction evs as [|ev rest IH]; intros v; [reflexivity|].
  destruct ev as [m fev|]; simpl; [|apply IH].
  destruct (String.eqb m n), fev; simpl; apply IH.
Qed.

(** X4: in NewForm each field evolves by its own events alone: after any
    history of field events and submissions, the username field is in the
    state its own changes and blurs lead to from its mount state, and so is
    the password field; the events of the other field and the submissions
    leave it untouched. *)
Theorem X4_fields_evolve_independently :
  forall evs : list NewForm.Event,
    NewForm.run evs NewForm.mount
    = NewForm.mounted
        (fst (InputField.run NewForm.usernameProps (NewForm.eventsOf "username" evs)
                (InputField.mount NewForm.usernameProps)))
        (fst (InputField.run NewForm.passwordProps (NewForm.eventsOf "password" evs)
                (InputField.mount NewForm.passwordProps))).
Proof. intros evs. apply (newform_run_mounted evs). Qed.

(** X5: whatever happened before, a submission of NewForm logs both keys
    with the text last typed into the field of that name (the empty string
    for a field never typed into): neither entry is ever null, and blurs,
    error messages and earlier submissions have no part in the data. *)
Theorem X5_submission_logs_what_was_typed :
  forall evs : list NewForm.Event,
    snd (NewForm.handleSubmit (NewForm.run evs NewForm.mount))
    = [NewForm.PreventDefault;
       NewForm.ConsoleLog
         {| NewForm.username := Some (NewForm.typed "username" evs "");
            NewForm.password := Some (NewForm.typed "password" evs "") |}].
Proof.
  intros evs. change NewForm.mount
    with (NewForm.mounted (InputField.mount NewForm.usernameProps)
                          (InputField.mount NewForm.passwordProps)).
  rewrite newform_run_mounted. unfold NewForm.handleSubmit, NewForm.mounted.
  cbn [snd NewForm.formDataGet NewForm.name NewForm.state].
  change (String.eqb "username" "username") with true.
  change (String.eqb "username" "password") with false.
  change (String.eqb "password" "password") with true.
  cbv iota. rewrite !run_value, !lastValue_eventsOf. reflexivity.
Qed.

(** ** OldForm: the error messages over a history *)

Lemma validateUsername_error_spec (value : string) (pending : OldForm.State) :
  OldForm.usernameError (OldForm.validateUsername value pending)
  = if decide (0 < String.length value < 7)
    then "Username must be at least 7 characters long" else "".
Proof.
  unfold OldForm.validateUsername.
  destruct (Nat.ltb_spec 0 (String.length value)),
    (Nat.ltb_spec (String.length value) 7);
    case_decide; simpl; try reflexivity; lia.
Qed.

Lemma oldform_run_cons (ev : OldForm.Event) (rest : list OldForm.Event)
      (s : OldForm.State) :
  OldForm.run (ev :: rest) s = OldForm.run rest (OldForm.step ev s).
Proof. reflexivity. Qed.

Lemma oldform_run_reachable (evs : list OldForm.Event) :
  forall s, OldForm.reachable s -> OldForm.reachable (OldForm.run evs s).
Proof.
  induction evs as [|ev rest IH]; intros s Hs; [exact Hs|].
  rewrite oldform_run_cons. apply IH. now apply OldForm.reachable_step.
Qed.

(** X6: what OldForm shows is in step with what it holds.  In every state
    the mounted form can reach, the username message is set exactly when
    the username has 1 to 6 characters; the password message is either
    unset or set while the password has 1 to 7 characters.  So no message
    is ever shown for an empty field or for a long enough value. *)
Theorem X6_messages_in_step_with_values :
  forall s : OldForm.State,
    OldForm.reachable s ->
    OldForm.usernameError s
    = (if decide (0 < String.length (OldForm.username s) < 7)
       then "Username must be at least 7 characters long" else "")
    /\ (OldForm.passwordError s = ""
        \/ (OldForm.passwordError s = "Password must be at least 8 characters long"
            /\ 0 < String.length (OldForm.password s) < 8)).
Proof.
  intros s Hs. destruct (reachable_errorsInSync s Hs) as [Hu Hp].
  split; [|exact Hp]. rewrite Hu. apply validateUsername_error_spec.
Qed.

Lemma X6_messages_in_step_with_values_witness :
  OldForm.usernameError Samples.shortPasswordSubmitted
  = (if decide (0 < String.length (OldForm.username Samples.shortPasswordSubmitted) < 7)
     then "Username must be at least 7 characters long" else "")
  /\ (OldForm.passwordError Samples.shortPasswordSubmitted = ""
      \/ (OldForm.passwordError Samples.shortPasswordSubmitted
          = "Password must be at least 8 characters long"
          /\ 0 < String.length (OldForm.password Samples.shortPasswordSubmitted) < 8)).
Proof.
  apply (X6_messages_in_step_with_values Samples.shortPasswordSubmitted).
  unfold Samples.shortPasswordSubmitted.
  repeat apply OldForm.reachable_step. apply OldForm.reachable_mount.
Defined.

Lemma no_submit_no_password_error (evs : list OldForm.Event) :
  forall s : OldForm.State,
    forallb (fun ev => negb (OldForm.isSubmit ev)) evs = true ->
    OldForm.passwordError s = "" ->
    OldForm.passwordError (OldForm.run evs s) = "".
Proof.
  induction evs as [|ev rest IH]; intros s Hevs Hs; [exact Hs|].
  simpl in Hevs. apply andb_true_iff in Hevs as [Hev Hrest].
  rewrite oldform_run_cons. apply IH; [exact Hrest|].
  destruct ev as [v|v|]; simpl in *; [| |discriminate Hev].
  - unfold OldForm.handleUsernameChange.
    now destruct (validateUsername_frame v (OldForm.setUsername v s)) as [_ [_ ->]].
  - unfold OldForm.handlePasswordChange. now rewrite Hs.
Qed.

(** X7: the password is validated lazily.  However the user types, into
    either field, no password message is set before the first submission:
    a password of 1 to 7 characters goes unreported until then (the
    username, in contrast, is checked at every change, see X6). *)
Theorem X7_no_password_message_before_submit :
  forall evs : list OldForm.Event,
    forallb (fun ev => negb (OldForm.isSubmit ev)) evs = true ->
    OldForm.passwordError (OldForm.run evs OldForm.mount) = ""
    /\ snd (OldForm.errorsShown (OldForm.run evs OldForm.mount)) = None.
Proof.
  intros evs Hevs.
  assert (H : OldForm.passwordError (OldForm.run evs OldForm.mount) = "")
    by now apply no_submit_no_password_error.
  split; [exact H|]. unfold OldForm.errorsShown. now rewrite H.
Qed.

Lemma X7_no_password_message_before_submit_witness :
  OldForm.passwordError
    (OldForm.run [OldForm.PasswordChange "abc"; OldForm.UsernameChange "bertrand"]
       OldForm.mount) = ""
  /\ snd (OldForm.errorsShown
            (OldForm.run [OldForm.PasswordChange "abc"; OldForm.UsernameChange "bertrand"]
               OldForm.mount)) = None.
Proof.
  apply (X7_no_password_message_before_submit
           [OldForm.PasswordChange "abc"; OldForm.UsernameChange "bertrand"]).
  reflexivity.
Defined.



(** X9: no double submission.  A submission that goes through leaves the
    form as it was mounted, and a submit event that follows it directly is
    rejected: the same values are never logged twice in a row. *)
Theorem X9_no_double_submission :
  forall s : OldForm.State,
    OldForm.submitted (snd (OldForm.handleSubmit s)) = true ->
    fst (OldForm.handleSubmit s) = OldForm.mount
    /\ OldForm.handleSubmit (fst (OldForm.handleSubmit s))
       = (OldForm.mount, [OldForm.PreventDefault]).
Proof.
  intros s Hlog. destruct (OldForm.rejects s) eqn:Hr.
  - rewrite (handleSubmit_rejected s Hr) in Hlog. discriminate Hlog.
  - rewrite (handleSubmit_accepted s Hr). split; reflexivity.
Qed.

Lemma X9_no_double_submission_witness :
  fst (OldForm.handleSubmit Samples.wellFilled) = OldForm.mount
  /\ OldForm.handleSubmit (fst (OldForm.handleSubmit Samples.wellFilled))
     = (OldForm.mount, [OldForm.PreventDefault]).
Proof.
  apply (X9_no_double_submission Samples.wellFilled). reflexivity.
Defined.

(** X10: an empty field blocks the submission without a word.  When the
    username is empty the submission is rejected and the username message
    after it is empty; the same holds for an empty password.  The lengths
    the guard asks for make both fields required, and no message says so. *)
Theorem X10_empty_field_rejected_silently :
  forall s : OldForm.State,
    (OldForm.username s = "" ->
     OldForm.submitted (snd (OldForm.handleSubmit s)) = false
     /\ OldForm.usernameError (fst (OldForm.handleSubmit s)) = "")
    /\ (OldForm.password s = "" ->
        OldForm.submitted (snd (OldForm.handleSubmit s)) = false
        /\ OldForm.passwordError (fst (OldForm.handleSubmit s)) = "").
Proof.
  intros s. split; intros Hempty.
  - rewrite handleSubmit_rejected by (apply rejects_true; rewrite Hempty; simpl; lia).
    split; [reflexivity|]. simpl fst. unfold OldForm.revalidate.
    destruct (validatePassword_frame (OldForm.password s)
                (OldForm.validateUsername (OldForm.username s) s)) as [_ [_ ->]].
    rewrite validateUsername_error_spec, Hempty. reflexivity.
  - rewrite handleSubmit_rejected by (apply rejects_true; rewrite Hempty; simpl; lia).
    split; [reflexivity|]. simpl fst. unfold OldForm.revalidate.
    rewrite validatePassword_error, Hempty. reflexivity.
Qed.

Lemma X10_empty_field_rejected_silently_witness :
  OldForm.submitted (snd (OldForm.handleSubmit OldForm.mount)) = false
  /\ OldForm.usernameError (fst (OldForm.handleSubmit OldForm.mount)) = "".
Proof.
  destruct (X10_empty_field_rejected_silently OldForm.mount) as [Husername _].
  apply Husername. reflexivity.
Defined.

(** X11: the two blur handlers of OldForm, which no element is given.  In
    every state the form can reach [handleUsernameBlur] would change
    nothing, the username being validated at every change already;
    [handlePasswordBlur] would set the password message for a password of
    1 to 7 characters, which without it stays unset until a submission. *)
Theorem X11_blur_handlers :
  forall s : OldForm.State,
    OldForm.reachable s ->
    OldForm.handleUsernameBlur s = s
    /\ OldForm.passwordError (OldForm.handlePasswordBlur s)
       = (if decide (0 < String.length (OldForm.password s) < 8)
          then "Password must be at least 8 characters long" else "")
    /\ OldForm.username (OldForm.handlePasswordBlur s) = OldForm.username s
    /\ OldForm.password (OldForm.handlePasswordBlur s) = OldForm.password s
    /\ OldForm.usernameError (OldForm.handlePasswordBlur s) = OldForm.usernameError s.
Proof.
  intros s Hs. split.
  - destruct (reachable_errorsInSync s Hs) as [Hu _].
    unfold OldForm.handleUsernameBlur.
    destruct (validateUsername_frame (OldForm.username s) s) as [H1 [H2 H3]].
    destruct s as [u p ue pe]; simpl in *.
    destruct (OldForm.validateUsername u _) as [u' p' ue' pe']; simpl in *.
    congruence.
  - unfold OldForm.handlePasswordBlur. split; [apply validatePassword_error|].
    destruct (validatePassword_frame (OldForm.password s) s) as [H1 [H2 H3]].
    now rewrite H1, H2, H3.
Qed.

Lemma X11_blur_handlers_witness :
  OldForm.handleUsernameBlur Samples.shortUsername = Samples.shortUsername
  /\ OldForm.passwordError (OldForm.handlePasswordBlur Samples.shortUsername)
     = (if decide (0 < String.length (OldForm.password Samples.shortUsername) < 8)
        then "Password must be at least 8 characters long" else "")
  /\ OldForm.username (OldForm.handlePasswordBlur Samples.shortUsername)
     = OldForm.username Samples.shortUsername
  /\ OldForm.password (OldForm.handlePasswordBlur Samples.shortUsername)
     = OldForm.password Samples.shortUsername
  /\ OldForm.usernameError (OldForm.handlePasswordBlur Samples.shortUsername)
     = OldForm.usernameError Samples.shortUsername.
Proof.
  apply (X11_blur_handlers Samples.shortUsername).
  unfold Samples.shortUsername.
  apply OldForm.reachable_step. apply OldForm.reachable_mount.
Defined.

(** ** index.html: the nodes the script appends *)

Lemma iteration_nodesOf (form : list IndexHtml.Node) (element : IndexHtml.Element) :
  IndexHtml.iteration form element = form ++ IndexHtml.nodesOf element.
Proof.
  destruct element as [t i l]. unfold IndexHtml.iteration, IndexHtml.nodesOf.
  cbn [IndexHtml.type IndexHtml.id IndexHtml.label].
  destruct (String.eqb_spec t "usernameInput") as [->|_].
  - simpl. now rewrite <- app_assoc.
  - destruct (String.eqb_spec t "passwordInput") as [->|_].
    + simpl. now rewrite <- app_assoc.
    + destruct (String.eqb t "submitButton"); [reflexivity|].
      now rewrite app_nil_r.
Qed.

Lemma render_flat_map (elements : list IndexHtml.Element) :
  forall form : list IndexHtml.Node,
    IndexHtml.render elements form = form ++ flat_map IndexHtml.nodesOf elements.
Proof.
  unfold IndexHtml.render.
  induction elements as [|e rest IH]; intros form; simpl.
  - now rewrite app_nil_r.
  - rewrite IH, iteration_nodesOf. now rewrite <- app_assoc.
Qed.

Lemma nodesOf_cases (element : IndexHtml.Element) :
  (IndexHtml.known element = false /\ IndexHtml.nodesOf element = [])
  \/ (IndexHtml.known element = true /\ IndexHtml.isSubmitButton element = true
      /\ IndexHtml.nodesOf element
         = [IndexHtml.InputNode (Some "submit") (IndexHtml.id element)])
  \/ (IndexHtml.known element = true /\ IndexHtml.isSubmitButton element = false
      /\ exists ty,
           ty <> Some "submit"
           /\ IndexHtml.nodesOf element
              = [IndexHtml.LabelNode (IndexHtml.id element) (IndexHtml.label element);
                 IndexHtml.InputNode ty (IndexHtml.id element)]).
Proof.
  destruct element as [t i l].
  unfold IndexHtml.known, IndexHtml.isSubmitButton, IndexHtml.nodesOf.
  cbn [IndexHtml.type IndexHtml.id IndexHtml.label].
  destruct (String.eqb_spec t "usernameInput") as [->|_].
  - right; right. repeat split. exists None. split; [discriminate|reflexivity].
  - destruct (String.eqb_spec t "passwordInput") as [->|_].
    + right; right. repeat split. exists (Some "password").
      split; [discriminate|reflexivity].
    + destruct (String.eqb t "submitButton").
      * right; left. repeat split.
      * left. split; reflexivity.
Qed.

(** X12: the loop of index.html only appends.  The children the form has
    already stay in front, in place; after them come, in schema order, the
    nodes of each entry: a label and an input for a username or password
    entry, one input for a submit entry, nothing for an entry of any other
    type.  So the form gains two nodes per labelled entry and one per
    submit entry. *)
Theorem X12_render_appends_in_schema_order :
  forall (elements : list IndexHtml.Element) (form : list IndexHtml.Node),
    IndexHtml.render elements form = form ++ flat_map IndexHtml.nodesOf elements
    /\ length (IndexHtml.render elements form)
       = length form
         + 2 * length (List.filter
                         (fun e => IndexHtml.known e && negb (IndexHtml.isSubmitButton e))
                         elements)
         + length (List.filter IndexHtml.isSubmitButton elements).
Proof.
  intros elements form. split; [apply render_flat_map|].
  rewrite render_flat_map, length_app.
  enough (length (flat_map IndexHtml.nodesOf elements)
          = 2 * length (List.filter
                          (fun e => IndexHtml.known e && negb (IndexHtml.isSubmitButton e))
                          elements)
            + length (List.filter IndexHtml.isSubmitButton elements)) by lia.
  induction elements as [|e rest IH]; [reflexivity|].
  cbn [flat_map List.filter]. rewrite length_app, IH.
  destruct (nodesOf_cases e) as [[Hk ->]|[[Hk [Hs ->]]|[Hk [Hs [ty [_ ->]]]]]].
  - rewrite Hk. simpl andb.
    assert (Hs : IndexHtml.isSubmitButton e = false).
    { unfold IndexHtml.known in Hk. unfold IndexHtml.isSubmitButton.
      now apply orb_false_iff in Hk as [_ Hk]. }
    rewrite Hs. simpl. lia.
  - rewrite Hk, Hs. simpl. lia.
  - rewrite Hk, Hs. simpl. lia.
Qed.

(** X13: in the form the script builds from any schema, every label is
    directly followed by an input that carries the id the label names, and
    that input is not a submit button. *)
Theorem X13_label_precedes_its_input :
  forall (elements : list IndexHtml.Element) (i : nat) (labelFor text : string),
    IndexHtml.render elements [] !! i = Some (IndexHtml.LabelNode labelFor text) ->
    exists ty,
      ty <> Some "submit"
      /\ IndexHtml.render elements [] !! S i = Some (IndexHtml.InputNode ty labelFor).
Proof.
  intros elements i labelFor text. rewrite render_flat_map. simpl app.
  revert i. induction elements as [|e rest IH]; intros i Hi; [discriminate Hi|].
  cbn [flat_map] in *.
  destruct (nodesOf_cases e) as [[_ He]|[[_ [_ He]]|[_ [_ [ty [Hty He]]]]]];
    rewrite He in *.
  - apply IH. exact Hi.
  - destruct i as [|i]; [discriminate Hi|]. apply (IH i). exact Hi.
  - destruct i as [|[|i]].
    + injection Hi as <- _. exists ty. split; [exact Hty|reflexivity].
    + discriminate Hi.
    + apply (IH i). exact Hi.
Qed.

Lemma X13_label_precedes_its_input_witness :
  exists ty,
    ty <> Some "submit"
    /\ IndexHtml.render IndexHtml.schema [] !! 1 = Some (IndexHtml.InputNode ty "username").
Proof.
  apply (X13_label_precedes_its_input IndexHtml.schema 0 "username" "Username").
  reflexivity.
Defined.

(** X14: the inputs of the built form carry, in order, the ids of the
    schema entries of a known type: every such entry gets exactly one
    input, an entry of an unknown type none, and no id is changed. *)
Theorem X14_input_ids_follow_schema :
  forall elements : list IndexHtml.Element,
    IndexHtml.inputIds (IndexHtml.render elements [])
    = map IndexHtml.id (List.filter IndexHtml.known elements).
Proof.
  intros elements. rewrite render_flat_map. simpl app.
  induction elements as [|e rest IH]; [reflexivity|].
  cbn [flat_map List.filter]. unfold IndexHtml.inputIds in *.
  rewrite flat_map_app, IH.
  destruct (nodesOf_cases e) as [[Hk ->]|[[Hk [_ ->]]|[Hk [_ [ty [_ ->]]]]]];
    rewrite Hk; reflexivity.
Qed.

(** The form of index.html itself. *)
Example render_schema :
  IndexHtml.render IndexHtml.schema []
  = [IndexHtml.LabelNode "username" "Username";
     IndexHtml.InputNode None "username";
     IndexHtml.LabelNode "password" "Password";
     IndexHtml.InputNode (Some "password") "password";
     IndexHtml.InputNode (Some "submit") "submit"].
Proof. reflexivity. Qed.

(** ** The form template of the README: grouping the failures *)

Section GroupByFacts.

Context {A : Type}.
Implicit Types (groups : list (string * list A)) (key k : string).

Lemma groupOf_addToGroup key k (x : A) groups :
  FormTemplate.groupOf k (FormTemplate.addToGroup key x groups)
  = if String.eqb key k
    then Some (default [] (FormTemplate.groupOf key groups) ++ [x])
    else FormTemplate.groupOf k groups.
Proof.
  induction groups as [|[k0 xs] rest IH]; simpl.
  - destruct (String.eqb_spec key k) as [->|Hne]; reflexivity.
  - destruct (String.eqb_spec k0 key) as [->|Hne0]; simpl.
    + destruct (String.eqb_spec key k) as [->|Hne]; reflexivity.
    + rewrite IH. destruct (String.eqb_spec k0 k) as [->|Hne1]; [|reflexivity].
      destruct (String.eqb_spec key k) as [->|_]; [congruence|reflexivity].
Qed.

Lemma keys_addToGroup key (x : A) groups :
  map fst (FormTemplate.addToGroup key x groups)
  = match FormTemplate.groupOf key groups with
    | Some _ => map fst groups
    | None => map fst groups ++ [key]
    end.
Proof.
  induction groups as [|[k0 xs] rest IH]; simpl; [reflexivity|].
  destruct (String.eqb_spec k0 key) as [->|Hne]; simpl; [reflexivity|].
  rewrite IH. now destruct (FormTemplate.groupOf key rest).
Qed.

Lemma groupOf_None key groups :
  FormTemplate.groupOf key groups = None <-> ~ In key (map fst groups).
Proof.
  induction groups as [|[k0 xs] rest IH]; simpl; [tauto|].
  destruct (String.eqb_spec k0 key) as [->|Hne].
  - split; [discriminate|]. intros H. exfalso. apply H. now left.
  - rewrite IH. tauto.
Qed.

Lemma groupOf_In key (xs : list A) groups :
  NoDup (map fst groups) ->
  (In (key, xs) groups <-> FormTemplate.groupOf key groups = Some xs).
Proof.
  induction groups as [|[k0 ys] rest IH]; simpl; intros Hnd.
  - split; [tauto|discriminate].
  - apply NoDup_cons in Hnd as [Hfresh Hnd].
    destruct (String.eqb_spec k0 key) as [->|Hne].
    + split.
      * intros [Heq|Hin]; [congruence|].
        exfalso. apply Hfresh, list_elem_of_In.
        apply (in_map fst rest (key, xs)). exact Hin.
      * intros Heq. left. congruence.
    + rewrite <- (IH Hnd). split; [|tauto].
      intros [Heq|Hin]; [congruence|exact Hin].
Qed.

Lemma groupBy_snoc (iteratee : A -> string) (l : list A) (x : A) :
  FormTemplate.groupBy iteratee (l ++ [x])
  = FormTemplate.addToGroup (iteratee x) x (FormTemplate.groupBy iteratee l).
Proof. unfold FormTemplate.groupBy. now rewrite fold_left_app. Qed.

Lemma groupBy_keys_NoDup (iteratee : A -> string) (l : list A) :
  NoDup (map fst (FormTemplate.groupBy iteratee l)).
Proof.
  induction l as [|x l IH] using rev_ind; [constructor|].
  rewrite groupBy_snoc, keys_addToGroup.
  destruct (FormTemplate.groupOf (iteratee x) (FormTemplate.groupBy iteratee l)) eqn:Hg;
    [exact IH|].
  apply NoDup_app. split; [exact IH|]. split; [|apply NoDup_singleton].
  intros k Hk Hx. apply list_elem_of_In in Hk. apply list_elem_of_In in Hx.
  destruct Hx as [<-|[]]. apply groupOf_None in Hg. contradiction.
Qed.

(** The group of a key holds the elements with that key, in their order;
    there is no group for a key without elements. *)
Lemma groupOf_groupBy (iteratee : A -> string) (l : list A) key :
  FormTemplate.groupOf key (FormTemplate.groupBy iteratee l)
  = match List.filter (fun x => String.eqb (iteratee x) key) l with
    | [] => None
    | xs => Some xs
    end.
Proof.
  induction l as [|x l IH] using rev_ind; [reflexivity|].
  rewrite groupBy_snoc, groupOf_addToGroup, List.filter_app. simpl List.filter.
  destruct (String.eqb_spec (iteratee x) key) as [<-|Hne].
  - rewrite IH.
    destruct (List.filter (fun y => String.eqb (iteratee y) (iteratee x)) l) as [|y ys];
      reflexivity.
  - rewrite IH, app_nil_r. reflexivity.
Qed.

End GroupByFacts.

(** ** The form template of the README: a submission *)

Section TemplateFacts.

Context {R Err V Summary : Type} `{EqDecision R} `{EqDecision Err}.
Variable validateForm : gmap string V -> list (Validation.ValidationFailure R Err).
Variable convert : list (Validation.ValidationFailure R Err) -> Summary.
Implicit Types (s : FormTemplate.State (R:=R) (Err:=Err) (V:=V) (Summary:=Summary)).

Lemma fanOut_In (apis : gset string)
      (grouped : list (string * list (Validation.ValidationFailure R Err)))
      (c : FormTemplate.Call (R:=R) (Err:=Err) (V:=V)) :
  In c (FormTemplate.fanOut apis grouped)
  <-> exists field failures,
      c = FormTemplate.SetFieldErrors field failures
      /\ In (field, failures) grouped /\ field ∈ apis.
Proof.
  unfold FormTemplate.fanOut. rewrite in_flat_map. split.
  - intros [[field failures] [Hin Hc]]. simpl in Hc.
    destruct (decide (field ∈ apis)) as [Hapi|_]; [|destruct Hc].
    destruct Hc as [<-|[]]. now exists field, failures.
  - intros [field [failures [-> [Hin Hapi]]]].
    exists (field, failures). split; [exact Hin|]. simpl.
    destruct (decide (field ∈ apis)) as [_|Hno]; [now left|contradiction].
Qed.

Lemma template_run_cons (ev : FormTemplate.Event) (rest : list FormTemplate.Event) s :
  FormTemplate.run validateForm convert (ev :: rest) s
  = FormTemplate.run validateForm convert rest (FormTemplate.step validateForm convert ev s).
Proof. reflexivity. Qed.

Lemma template_run_values (evs : list FormTemplate.Event) : forall s (n : string),
  FormTemplate.formValues (FormTemplate.run validateForm convert evs s) !! n
  = FormTemplate.lastReported n evs (FormTemplate.formValues s !! n).
Proof.
  induction evs as [|ev rest IH]; intros s n; [reflexivity|].
  rewrite template_run_cons, IH. destruct ev as [v m|]; simpl; [|reflexivity].
  destruct (String.eqb_spec m n) as [->|Hne].
  - now rewrite lookup_insert_eq.
  - now rewrite lookup_insert_ne.
Qed.

Lemma template_run_flags (evs : list FormTemplate.Event) : forall s,
  FormTemplate.wasSubmitted (FormTemplate.run validateForm convert evs s)
  = FormTemplate.wasSubmitted s || existsb FormTemplate.isSubmit evs
  /\ FormTemplate.isSubmitting (FormTemplate.run validateForm convert evs s)
     = FormTemplate.isSubmitting s || existsb FormTemplate.isSubmit evs.
Proof.
  induction evs as [|ev rest IH]; intros s.
  - simpl. now rewrite !orb_false_r.
  - rewrite template_run_cons. destruct (IH (FormTemplate.step validateForm convert ev s))
      as [-> ->].
    destruct ev as [v m|]; simpl; [split; reflexivity|].
    rewrite !orb_true_r. split; reflexivity.
Qed.

End TemplateFacts.

Lemma handleSubmit_fan_out :
  forall (R Err V Summary : Type) (HR : EqDecision R) (HErr : EqDecision Err)
         (validateForm : gmap string V -> list (Validation.ValidationFailure R Err))
         (convert : list (Validation.ValidationFailure R Err) -> Summary)
         (s : FormTemplate.State) (field : string)
         (failures : list (Validation.ValidationFailure R Err)),
    In (FormTemplate.SetFieldErrors field failures)
       (snd (FormTemplate.handleSubmit validateForm convert s))
    <-> field ∈ FormTemplate.formApi s
        /\ failures <> []
        /\ failures
           = List.filter (fun f => String.eqb (FormTemplate.fieldOf f) field)
                         (validateForm (FormTemplate.formValues s)).
Proof.
  intros R Err V Summary HR HErr validateForm convert s field failures.
  unfold FormTemplate.handleSubmit. cbn [snd].
  set (results := validateForm (FormTemplate.formValues s)).
  rewrite !in_app_iff, fanOut_In.
  assert (Hgroup : In (field, failures) (FormTemplate.groupBy FormTemplate.fieldOf results)
                   <-> failures <> []
                       /\ failures
                          = List.filter (fun f => String.eqb (FormTemplate.fieldOf f) field)
                                        results).
  { rewrite (groupOf_In field failures _ (groupBy_keys_NoDup _ results)).
    rewrite groupOf_groupBy.
    destruct (List.filter _ results) as [|f fs]; split.
    - discriminate.
    - intros [Hne Heq]. congruence.
    - intros Heq. injection Heq as <-. split; [discriminate|reflexivity].
    - intros [_ ->]. reflexivity. }
  split.
  - intros [Hnotified|[Hfan|Hlast]].
    + destruct (decide _); [destruct Hnotified|].
      destruct Hnotified as [Heq|[]]. discriminate Heq.
    + destruct Hfan as [field' [failures' [Heq [Hin Hapi]]]].
      injection Heq as -> ->. apply Hgroup in Hin. tauto.
    + destruct Hlast as [Heq|[Heq|[]]]; discriminate Heq.
  - intros [Hapi Hrest]. right; left. exists field, failures.
    split; [reflexivity|]. split; [apply Hgroup; exact Hrest|exact Hapi].
Qed.

(** X15: the fan-out of a submission.  [setFieldErrors] is called on a
    field exactly when the field has a published API and the form validator
    reported at least one failure for it, and then with all the failures of
    that field, in the order the validator gave them.  A field without a
    failure gets no call: an error it showed before is not cleared by the
    submission. *)
Theorem X15_fan_out_reaches_failing_fields_only :
  forall (R Err V Summary : Type) (HR : EqDecision R) (HErr : EqDecision Err)
         (validateForm : gmap string V -> list (Validation.ValidationFailure R Err))
         (convert : list (Validation.ValidationFailure R Err) -> Summary)
         (s : FormTemplate.State) (field : string)
         (failures : list (Validation.ValidationFailure R Err)),
    In (FormTemplate.SetFieldErrors field failures)
       (snd (FormTemplate.handleSubmit validateForm convert s))
    <-> field ∈ FormTemplate.formApi s
        /\ failures <> []
        /\ failures
           = List.filter (fun f => String.eqb (FormTemplate.fieldOf f) field)
                         (validateForm (FormTemplate.formValues s)).
Proof. exact handleSubmit_fan_out. Qed.

(** X16: every submission ends by handing the data on.  Whatever the
    validator reports, the calls of [handleSubmit] end with one
    [onDataSubmit], given the validation results and the form values, and
    then [preventDefault]; all calls before them are validity notifications
    and [setFieldErrors], so that the fields have their errors before the
    parent hears of the submission. *)
Theorem X16_submission_always_hands_data_on :
  forall (R Err V Summary : Type) (HR : EqDecision R) (HErr : EqDecision Err)
         (validateForm : gmap string V -> list (Validation.ValidationFailure R Err))
         (convert : list (Validation.ValidationFailure R Err) -> Summary)
         (s : FormTemplate.State),
  exists before,
    snd (FormTemplate.handleSubmit validateForm convert s)
    = before
      ++ [FormTemplate.OnDataSubmit (validateForm (FormTemplate.formValues s))
                                    (FormTemplate.formValues s);
          FormTemplate.PreventDefault]
    /\ forall c, In c before ->
                 match c with
                 | FormTemplate.OnFormValidityChange _
                 | FormTemplate.SetFieldErrors _ _ => True
                 | FormTemplate.OnDataSubmit _ _
                 | FormTemplate.PreventDefault => False
                 end.
Proof.
  intros R Err V Summary HR HErr validateForm convert s.
  unfold FormTemplate.handleSubmit. cbn [snd].
  set (results := validateForm (FormTemplate.formValues s)).
  eexists. split; [rewrite app_assoc; reflexivity|].
  intros c Hc. apply in_app_iff in Hc as [Hc|Hc].
  - destruct (decide _); [destruct Hc|]. now destruct Hc as [<-|[]].
  - apply fanOut_In in Hc as [field [failures [-> _]]]. exact I.
Qed.

(** X17: the form's validity notification is deduplicated against the
    last submission.  [onFormValidityChange] is called in a submission
    exactly when the results differ from the stored ones, and with the new
    results; a second submission of unchanged values never calls it. *)
Theorem X17_validity_notification_deduplicated :
  forall (R Err V Summary : Type) (HR : EqDecision R) (HErr : EqDecision Err)
         (validateForm : gmap string V -> list (Validation.ValidationFailure R Err))
         (convert : list (Validation.ValidationFailure R Err) -> Summary)
         (s : FormTemplate.State)
         (results : list (Validation.ValidationFailure R Err)),
    (In (FormTemplate.OnFormValidityChange results)
        (snd (FormTemplate.handleSubmit validateForm convert s))
     <-> results = validateForm (FormTemplate.formValues s)
         /\ FormTemplate.formErrorsRaw s <> results)
    /\ ~ In (FormTemplate.OnFormValidityChange results)
            (snd (FormTemplate.handleSubmit validateForm convert
                    (fst (FormTemplate.handleSubmit validateForm convert s)))).
Proof.
  intros R Err V Summary HR HErr validateForm convert s results.
  assert (Hiff : forall s0 : FormTemplate.State,
             In (FormTemplate.OnFormValidityChange results)
                (snd (FormTemplate.handleSubmit validateForm convert s0))
             <-> results = validateForm (FormTemplate.formValues s0)
                 /\ FormTemplate.formErrorsRaw s0 <> results).
  { intros s0. unfold FormTemplate.handleSubmit. cbn [snd].
    rewrite !in_app_iff, fanOut_In. split.
    - intros [Hn|[Hfan|Hlast]].
      + destruct (decide _) as [|Hne]; [destruct Hn|].
        destruct Hn as [Heq|[]]. injection Heq as <-. split; [reflexivity|exact Hne].
      + destruct Hfan as [field [failures [Heq _]]]. discriminate Heq.
      + destruct Hlast as [Heq|[Heq|[]]]; discriminate Heq.
    - intros [-> Hne]. left. destruct (decide _) as [Heq|_]; [contradiction|].
      now left. }
  split; [apply Hiff|].
  intros Hin. apply Hiff in Hin as [Hres Hne]. apply Hne.
  rewrite Hres. reflexivity.
Qed.

(** ** The form template of the README: the form over a history *)

(** X18: the form data follows the reports of the fields.  After any
    history of value reports and submissions the data holds, under every
    field name, the value reported last for that name, and what it held
    before for a name never reported; a submission changes no entry. *)
Theorem X18_form_data_holds_last_reports :
  forall (R Err V Summary : Type) (HR : EqDecision R) (HErr : EqDecision Err)
         (validateForm : gmap string V -> list (Validation.ValidationFailure R Err))
         (convert : list (Validation.ValidationFailure R Err) -> Summary)
         (evs : list FormTemplate.Event) (s : FormTemplate.State) (n : string),
    FormTemplate.formValues (FormTemplate.run validateForm convert evs s) !! n
    = FormTemplate.lastReported n evs (FormTemplate.formValues s !! n)
    /\ FormTemplate.formValues (fst (FormTemplate.handleSubmit validateForm convert s))
       = FormTemplate.formValues s.
Proof.
  intros R Err V Summary HR HErr validateForm convert evs s n.
  split; [apply template_run_values|reflexivity].
Qed.

(** X19: [wasSubmitted] is permanent, and the handler never ends a
    submission itself.  After any history of value reports and submissions
    that holds a submission, [wasSubmitted] and [isSubmitting] are both
    true; and right after a submission the stored results are those of the
    validator, with a summary exactly when there is a failure. *)
Theorem X19_submitted_for_good :
  forall (R Err V Summary : Type) (HR : EqDecision R) (HErr : EqDecision Err)
         (validateForm : gmap string V -> list (Validation.ValidationFailure R Err))
         (convert : list (Validation.ValidationFailure R Err) -> Summary)
         (evs : list FormTemplate.Event) (s : FormTemplate.State),
    existsb FormTemplate.isSubmit evs = true ->
    let s' := FormTemplate.run validateForm convert evs s in
    let submitted := fst (FormTemplate.handleSubmit validateForm convert s) in
    FormTemplate.wasSubmitted s' = true
    /\ FormTemplate.isSubmitting s' = true
    /\ FormTemplate.formErrorsRaw submitted = validateForm (FormTemplate.formValues s)
    /\ (FormTemplate.formErrorsSummary submitted = None
        <-> validateForm (FormTemplate.formValues s) = []).
Proof.
  intros R Err V Summary HR HErr validateForm convert evs s Hsub s' submitted.
  subst s' submitted.
  destruct (template_run_flags validateForm convert evs s) as [-> ->].
  rewrite Hsub, !orb_true_r. repeat split.
  - cbn. destruct (validateForm (FormTemplate.formValues s)); [reflexivity|].
    simpl. discriminate.
  - cbn. intros ->. reflexivity.
Qed.

Lemma X19_submitted_for_good_witness :
  let validateForm := fun _ : gmap string string => [Samples.oneFailure] in
  let s' := FormTemplate.run validateForm length
              [FormTemplate.Submit; FormTemplate.ValueChange "x" "field1"]
              Samples.templateMounted in
  let submitted := fst (FormTemplate.handleSubmit validateForm length
                          Samples.templateMounted) in
  FormTemplate.wasSubmitted s' = true
  /\ FormTemplate.isSubmitting s' = true
  /\ FormTemplate.formErrorsRaw submitted = [Samples.oneFailure]
  /\ (FormTemplate.formErrorsSummary submitted = None <-> [Samples.oneFailure] = []).
Proof.
  apply (X19_submitted_for_good string Empty_set string nat _ _
           (fun _ => [Samples.oneFailure]) length
           [FormTemplate.Submit; FormTemplate.ValueChange "x" "field1"]
           Samples.templateMounted).
  reflexivity.
Defined.

(** ** OldForm: a valid submission, from any state *)

(** X20: the user can always get a valid submission through.  Whatever
    state OldForm is in, typing a username of at least 7 characters and a
    password of at least 8, in either order, clears both messages, and the
    submission that follows logs exactly these two values and empties the
    form. *)
Theorem X20_valid_values_always_submit :
  forall (s : OldForm.State) (u p : string),
    7 <= String.length u ->
    8 <= String.length p ->
    OldForm.handleSubmit
      (OldForm.run [OldForm.UsernameChange u; OldForm.PasswordChange p] s)
    = (OldForm.mount, [OldForm.PreventDefault; OldForm.ConsoleLog u p])
    /\ OldForm.handleSubmit
         (OldForm.run [OldForm.PasswordChange p; OldForm.UsernameChange u] s)
       = (OldForm.mount, [OldForm.PreventDefault; OldForm.ConsoleLog u p])
    /\ OldForm.errorsShown
         (OldForm.run [OldForm.UsernameChange u; OldForm.PasswordChange p] s)
       = (None, None).
Proof.
  intros s u p Hu Hp.
  assert (Hvu : forall st, OldForm.validateUsername u st = OldForm.setUsernameError "" st).
  { intros st. unfold OldForm.validateUsername.
    destruct (Nat.ltb_spec (String.length u) 7); [lia|]. now rewrite andb_false_r. }
  assert (Hvp : forall st, OldForm.validatePassword p st = OldForm.setPasswordError "" st).
  { intros st. unfold OldForm.validatePassword.
    destruct (Nat.ltb_spec (String.length p) 8); [lia|]. now rewrite andb_false_r. }
  assert (Hfinal : forall st,
             OldForm.username st = u -> OldForm.password st = p ->
             OldForm.usernameError st = "" -> OldForm.passwordError st = "" ->
             OldForm.handleSubmit st
             = (OldForm.mount, [OldForm.PreventDefault; OldForm.ConsoleLog u p])).
  { intros st H1 H2 H3 H4. rewrite handleSubmit_accepted.
    - now rewrite H1, H2.
    - apply rejects_false. rewrite H1, H2, H3, H4. repeat split; assumption. }
  unfold OldForm.run, OldForm.errorsShown; cbn [fold_left OldForm.step].
  unfold OldForm.handlePasswordChange, OldForm.handleUsernameChange.
  rewrite !Hvu, !Hvp.
  destruct (truthy (OldForm.passwordError s)) eqn:Ht; cbn [OldForm.passwordError
    OldForm.setPassword OldForm.setUsername OldForm.setUsernameError].
  - rewrite Ht. split; [|split]; try (apply Hfinal; reflexivity). reflexivity.
  - rewrite Ht. apply truthy_false in Ht.
    split; [|split]; try (apply Hfinal; cbn; (reflexivity || exact Ht)).
    cbn. rewrite Ht. reflexivity.
Qed.

Lemma X20_valid_values_always_submit_witness :
  OldForm.handleSubmit
    (OldForm.run [OldForm.UsernameChange "bertrand"; OldForm.PasswordChange "12345678"]
       Samples.shortPasswordSubmitted)
  = (OldForm.mount, [OldForm.PreventDefault; OldForm.ConsoleLog "bertrand" "12345678"])
  /\ OldForm.handleSubmit
       (OldForm.run [OldForm.PasswordChange "12345678"; OldForm.UsernameChange "bertrand"]
          Samples.shortPasswordSubmitted)
     = (OldForm.mount, [OldForm.PreventDefault; OldForm.ConsoleLog "bertrand" "12345678"])
  /\ OldForm.errorsShown
       (OldForm.run [OldForm.UsernameChange "bertrand"; OldForm.PasswordChange "12345678"]
          Samples.shortPasswordSubmitted)
     = (None, None).
Proof.
  apply (X20_valid_values_always_submit Samples.shortPasswordSubmitted
           "bertrand" "12345678"); simpl; lia.
Defined.

(** ** The template with a combined validator *)

Section CombinedFanOut.

Context {R Err V : Type}.

Lemma fieldOf_stamp (key : string) (f : Validation.ValidationFailure R Err) :
  FormTemplate.fieldOf (Validation.stamp key f) = key.
Proof. unfold FormTemplate.fieldOf. now rewrite stamp_field. Qed.

Lemma filter_failuresOf (record : gmap string V) (key : string)
      (kv : string * Validation.FieldValidator R Err V) :
  List.filter (fun f => String.eqb (FormTemplate.fieldOf f) key)
              (Validation.failuresOf record kv)
  = if String.eqb kv.1 key then Validation.failuresOf record kv else [].
Proof.
  unfold Validation.failuresOf.
  induction (kv.2 (record !! kv.1)) as [|f fs IH]; simpl.
  - now destruct (String.eqb kv.1 key).
  - rewrite fieldOf_stamp, IH. now destruct (String.eqb kv.1 key).
Qed.

Lemma filter_combined (record : gmap string V) (key : string)
      (validator : Validation.FieldValidator R Err V)
      (fvm : list (string * Validation.FieldValidator R Err V)) :
  NoDup (map fst fvm) ->
  In (key, validator) fvm ->
  List.filter (fun f => String.eqb (FormTemplate.fieldOf f) key)
              (Validation.validateRecord (Validation.combineValidators fvm) record)
  = map (Validation.stamp key) (validator (record !! key)).
Proof.
  rewrite validateRecord_concat.
  induction fvm as [|[k v] rest IH]; intros Hnd Hin; [destruct Hin|].
  simpl in Hnd. apply NoDup_cons in Hnd as [Hfresh Hnd].
  cbn [map concat]. rewrite List.filter_app, filter_failuresOf. cbn [fst].
  destruct Hin as [Heq|Hin].
  - injection Heq as -> ->. rewrite String.eqb_refl.
    assert (Hrest : List.filter (fun f => String.eqb (FormTemplate.fieldOf f) key)
                      (concat (map (Validation.failuresOf record) rest)) = []).
    { clear IH Hnd. induction rest as [|[k' v'] rest IH]; [reflexivity|].
      cbn [map concat]. rewrite List.filter_app, filter_failuresOf. cbn [fst].
      destruct (String.eqb_spec k' key) as [->|_].
      - exfalso. apply Hfresh. simpl. left.
      - simpl. apply IH. intros Hin. apply Hfresh. simpl. now right. }
    rewrite Hrest, app_nil_r. reflexivity.
  - destruct (String.eqb_spec k key) as [->|_].
    + exfalso. apply Hfresh, list_elem_of_In.
      apply (in_map fst rest (key, validator)). exact Hin.
    + simpl. now apply IH.
Qed.

End CombinedFanOut.

(** X21: the template with [combineValidators] as its form validator, as
    the README sets it up.  For distinct keys, the failures a submission
    hands to [setFieldErrors] of a field are exactly those of that field's
    own validator run on that field's value, each stamped with the field;
    the failures of the other fields never reach it. *)
Theorem X21_each_field_gets_its_own_failures :
  forall (R Err V Summary : Type) (HR : EqDecision R) (HErr : EqDecision Err)
         (fvm : list (string * Validation.FieldValidator R Err V))
         (convert : list (Validation.ValidationFailure R Err) -> Summary)
         (s : FormTemplate.State) (field : string)
         (validator : Validation.FieldValidator R Err V)
         (failures : list (Validation.ValidationFailure R Err)),
    NoDup (map fst fvm) ->
    In (field, validator) fvm ->
    In (FormTemplate.SetFieldErrors field failures)
       (snd (FormTemplate.handleSubmit
               (Validation.validateRecord (Validation.combineValidators fvm))
               convert s)) ->
    failures
    = map (Validation.stamp field) (validator (FormTemplate.formValues s !! field))
    /\ validator (FormTemplate.formValues s !! field) <> [].
Proof.
  intros R Err V Summary HR HErr fvm convert s field validator failures Hnd Hin Hcall.
  apply handleSubmit_fan_out in Hcall as [_ [Hne Heq]].
  rewrite (filter_combined _ field validator fvm Hnd Hin) in Heq.
  split; [exact Heq|]. intros Hnil. apply Hne. rewrite Heq, Hnil. reflexivity.
Qed.

Lemma X21_each_field_gets_its_own_failures_witness :
  [Validation.stamp "a" Samples.oneFailure]
  = map (Validation.stamp "a")
        (Samples.failing (FormTemplate.formValues Samples.templateAB !! "a"))
  /\ Samples.failing (FormTemplate.formValues Samples.templateAB !! "a") <> [].
Proof.
  apply (X21_each_field_gets_its_own_failures string Empty_set string nat _ _
           [("a", Samples.failing); ("b", Samples.passing)] length
           Samples.templateAB "a" Samples.failing
           [Validation.stamp "a" Samples.oneFailure]).
  - apply NoDup_cons. split; [|apply NoDup_singleton].
    apply not_elem_of_cons. split; [discriminate|apply not_elem_of_nil].
  - simpl. left. reflexivity.
  - vm_compute. right. left. reflexivity.
Defined.
